(** * Coin-flip client (utils.ts): a shallow embedding and its properties

    The client in [utils.ts] is a sequence of asynchronous calls against
    services it does not implement: the RPC connection, the Switchboard
    helper library, the terminal and the process itself.  The embedding keeps
    the code's own control flow and leaves those services abstract: every
    call is answered by an environment [Env W] over an arbitrary state [W],
    and every call is recorded, with its arguments and its answer, in the
    trace of the run.  Properties are stated on outcomes and traces and hold
    for every environment. *)

From Stdlib Require Import String Ascii List ZArith NArith QArith Bool Lia.
From Stdlib Require Import DecimalString.
Import ListNotations.

Local Open Scope string_scope.
Local Open Scope Z_scope.

(** ** JavaScript strings

    A string is a sequence of code units; the model covers the code units
    0..255, a range closed under [toLowerCase] and on which both library
    functions act unit by unit. *)

Module JsString.

(** WhiteSpace and LineTerminator code units of ECMAScript below 256:
    TAB, LF, VT, FF, CR, SP and NBSP. *)
Definition isWhiteSpace (c : ascii) : bool :=
  let n := N_of_ascii c in
  (((9 <=? n) && (n <=? 13)) || (n =? 32) || (n =? 160))%N.

(** Upper-case letters below 256: A-Z and the Latin-1 letters
    U+00C0..U+00DE without the multiplication sign U+00D7. *)
Definition isUpper (c : ascii) : bool :=
  let n := N_of_ascii c in
  (((65 <=? n) && (n <=? 90))
   || ((192 <=? n) && (n <=? 222) && negb (n =? 215)))%N.

Definition lowerUnit (c : ascii) : ascii :=
  if isUpper c then ascii_of_N (N_of_ascii c + 32) else c.

(** [String.prototype.toLowerCase] *)
Fixpoint toLowerCase (s : string) : string :=
  match s with
  | EmptyString => EmptyString
  | String c r => String (lowerUnit c) (toLowerCase r)
  end.

Fixpoint trimStart (s : string) : string :=
  match s with
  | EmptyString => EmptyString
  | String c r => if isWhiteSpace c then trimStart r else s
  end.

Fixpoint trimEnd (s : string) : string :=
  match s with
  | EmptyString => EmptyString
  | String c r =>
      match trimEnd r with
      | EmptyString => if isWhiteSpace c then EmptyString else String c EmptyString
      | r' => String c r'
      end
  end.

(** [String.prototype.trim] *)
Definition trim (s : string) : string := trimEnd (trimStart s).

(** Truthiness of a value that is a string or [undefined]: [!v] holds for
    [undefined] and for the empty string only. *)
Definition falsy (v : option string) : bool :=
  match v with
  | None => true
  | Some s => String.eqb s EmptyString
  end.

End JsString.

(** The decimal digits of a non-negative integer. *)
Definition decimalDigits (z : Z) : string :=
  NilEmpty.string_of_int (Z.to_int z).

(** ** JavaScript numbers that hold lamports

    A lamport amount reaches the client as a JavaScript number, an IEEE 754
    double, holding an integer.  A finite double that holds an integer is
    modelled by that integer; arithmetic on such numbers is the exact
    operation followed by the rounding of doubles (53 significant bits, to
    nearest, ties to even), and overflows to an infinity. *)

Module JsNumber.

Inductive number :=
| Finite (z : Z)
| PlusInfinity
| MinusInfinity.

(** The integer with at most 53 significant bits nearest to [z]. *)
Definition nearest (z : Z) : Z :=
  let a := Z.abs z in
  let e := Z.log2 a in
  if e <? 53 then z
  else
    let sh := e - 52 in
    let q := Z.shiftr a sh in
    let rest := a - Z.shiftl q sh in
    let half := Z.shiftl 1 (sh - 1) in
    let q' := if (half <? rest) || ((rest =? half) && Z.odd q)
              then q + 1 else q in
    Z.sgn z * Z.shiftl q' sh.

(** [Number.MAX_VALUE] and [Number.MAX_SAFE_INTEGER] *)
Definition maxValue : Z := 2 ^ 1024 - 2 ^ 971.
Definition maxSafeInteger : Z := 2 ^ 53 - 1.

(** The number that the exact integer result [z] of an operation becomes. *)
Definition ofExact (z : Z) : number :=
  let r := nearest z in
  if maxValue <? r then PlusInfinity
  else if r <? - maxValue then MinusInfinity
  else Finite r.

(** [x - y] on two finite numbers holding integers. *)
Definition sub (x y : Z) : number := ofExact (x - y).

Definition width (a : Z) : Z := Z.of_nat (String.length (decimalDigits a)).

(** Number::toString picks the decimal with the fewest significant digits
    that still denotes the number [a], and among those the one closest to
    it; [shortest] tries 1, 2, ... digits. *)
Fixpoint shortest (fuel : nat) (k : Z) (a : Z) : Z :=
  match fuel with
  | O => a
  | S fuel' =>
      if width a <=? k then a
      else
        let p := 10 ^ (width a - k) in
        let lo := (a / p) * p in
        let hi := lo + p in
        match nearest lo =? a, nearest hi =? a with
        | true, true =>
            if a - lo <? hi - a then lo
            else if hi - a <? a - lo then hi
            else if Z.even (a / p) then lo else hi
        | true, false => lo
        | false, true => hi
        | false, false => shortest fuel' (k + 1) a
        end
  end.

Fixpoint stripZeros (s : string) : string :=
  match s with
  | EmptyString => EmptyString
  | String c r =>
      match stripZeros r with
      | EmptyString =>
          if Ascii.eqb c "0" then EmptyString else String c EmptyString
      | r' => String c r'
      end
  end.

(** Up to 21 digits are written out; beyond, the exponent form is used. *)
Definition render (c : Z) : string :=
  let n := width c in
  if n <=? 21 then decimalDigits c
  else
    match stripZeros (decimalDigits c) with
    | String d EmptyString => String d ("e+" ++ decimalDigits (n - 1))
    | String d rest => String d ("." ++ rest ++ "e+" ++ decimalDigits (n - 1))
    | EmptyString => EmptyString
    end.

(** The string a number becomes inside a template literal. *)
Definition toString (x : number) : string :=
  match x with
  | Finite z =>
      if z =? 0 then "0"
      else if z <? 0 then "-" ++ render (shortest 17 1 (- z))
      else render (shortest 17 1 z)
  | PlusInfinity => "Infinity"
  | MinusInfinity => "-Infinity"
  end.

End JsNumber.

(** ** Data model *)

Definition PublicKey := string.
Definition Signature := string.

Record Keypair := { publicKey : PublicKey; secretKey : string }.

Record Connection := { rpcEndpoint : string }.
Record Provider := { connection : Connection }.
Record Program := { programId : PublicKey; provider : Provider }.

(** The [Commitment] union of web3.js. *)
Inductive Commitment :=
| processed | confirmed | finalized
| recent | single | singleGossip | root | max.

(** [txOpts] is typed [any] in the source; these are the fields the client
    itself ever sets, each of them optional. *)
Record TxOpts := {
  commitment : option Commitment;
  skipPreflight : option bool;
  maxRetries : option Z
}.

(** A program-derived address together with its bump, as the callers pass
    it: [[PublicKey, number]]. *)
Definition DerivedAccount := (PublicKey * Z)%type.

Inductive Method :=
| Initialize
| CoinFlip (randomnessAccount : PublicKey) (guess : bool)
| SettleFlip (escrowBump : Z).

Record Accounts := {
  playerState : DerivedAccount;
  escrowAccount : PublicKey;
  user : PublicKey;
  systemProgram : PublicKey;
  randomnessAccountData : option PublicKey
}.

Inductive TransactionInstruction :=
| SystemTransfer (fromPubkey toPubkey : PublicKey) (lamports : Z)
| ProgramCall (program : PublicKey) (method : Method) (accounts : Accounts)
| SetComputeUnitPrice (microLamports : Z)
| SetComputeUnitLimit (units : Z).

(** The argument object of [sb.asV0Tx]. *)
Record V0TxRequest := {
  reqConnection : Connection;
  ixs : list TransactionInstruction;
  payer : PublicKey;
  signers : list Keypair;
  computeUnitPrice : Z;
  computeUnitLimitMultiple : Q
}.

Record VersionedTransaction := {
  txInstructions : list TransactionInstruction;
  txPayer : PublicKey;
  txSigners : list PublicKey;
  txBlockhash : string
}.

(** What [simulateTransaction] resolves to: the dry run's own verdict is the
    [simErr] field of the value, not an exception. *)
Record SimulatedTransactionResponse := {
  simErr : option string;
  simLogs : list string
}.

(** What [confirmTransaction] resolves to. *)
Record SignatureResult := { sigErr : option string }.

Record QueueAccount := { pubkey : PublicKey }.

(** The answer of a call that may reject. *)
Inductive Result (A : Type) :=
| Ok (a : A)
| Err (e : string).
Arguments Ok {A} a.
Arguments Err {A} e.

(** ** Traces *)

Inductive Event :=
| EvQuestion (prompt answer : string)
| EvLog (args : list string)
| EvError (args : list string)
| EvExit (code : Z)
| EvGetDefaultQueue (endpoint : string) (r : Result QueueAccount)
| EvLoadData (q : QueueAccount) (r : Result unit)
| EvBuild (req : V0TxRequest) (r : Result VersionedTransaction)
| EvSimulate (c : Connection) (tx : VersionedTransaction) (o : TxOpts)
    (r : Result SimulatedTransactionResponse)
| EvSend (c : Connection) (tx : VersionedTransaction) (o : TxOpts)
    (r : Result Signature)
| EvConfirm (c : Connection) (sig : Signature) (lvl : Commitment)
    (r : Result SignatureResult)
| EvGetBalance (c : Connection) (account : PublicKey) (r : Result Z)
| EvGetMinimumBalance (c : Connection) (dataLength : Z) (r : Result Z)
| EvInstruction (program : Program) (method : Method) (accounts : Accounts)
    (r : Result TransactionInstruction).

(** How a run ends: the function returns, an exception escapes it, or the
    process is terminated by [process.exit]. *)
Inductive Outcome (A : Type) :=
| Returned (a : A)
| Thrown (e : string)
| Exited (code : Z).
Arguments Returned {A} a.
Arguments Thrown {A} e.
Arguments Exited {A} code.

Record Run (W A : Type) := mkRun {
  outcome : Outcome A;
  world : W;
  trace : list Event
}.
Arguments mkRun {W A}.
Arguments outcome {W A}.
Arguments world {W A}.
Arguments trace {W A}.

(** ** The process monad *)

Definition Proc (W A : Type) := W -> Run W A.

Definition ret {W A} (a : A) : Proc W A := fun w => mkRun (Returned a) w [].

Definition bind {W A B} (m : Proc W A) (k : A -> Proc W B) : Proc W B :=
  fun w =>
    let r := m w in
    match outcome r with
    | Returned a =>
        let r' := k a (world r) in
        mkRun (outcome r') (world r') (trace r ++ trace r')
    | Thrown e => mkRun (Thrown e) (world r) (trace r)
    | Exited c => mkRun (Exited c) (world r) (trace r)
    end.

(** [try { m } catch (err) { handler }]: only an exception reaches the
    handler, a process exit does not. *)
Definition tryCatch {W A} (m : Proc W A) (handler : string -> Proc W A)
  : Proc W A :=
  fun w =>
    let r := m w in
    match outcome r with
    | Thrown e =>
        let r' := handler e (world r) in
        mkRun (outcome r') (world r') (trace r ++ trace r')
    | _ => r
    end.

(** An awaited call: the environment answers, the event is recorded, and a
    rejection becomes an exception. *)
Definition await {W A} (f : W -> Result A * W) (ev : Result A -> Event)
  : Proc W A :=
  fun w =>
    let (r, w') := f w in
    mkRun (match r with Ok a => Returned a | Err e => Thrown e end) w' [ev r].

Definition emit {W} (e : Event) : Proc W unit :=
  fun w => mkRun (Returned tt) w [e].

(** [process.exit(code)] *)
Definition processExit {W A} (code : Z) : Proc W A :=
  fun w => mkRun (Exited code) w [EvExit code].

Declare Scope proc_scope.
Delimit Scope proc_scope with proc.
Notation "x <- m ;; k" := (bind m (fun x => k))
  (at level 100, m at next level, right associativity) : proc_scope.
Notation "m ;; k" := (bind m (fun _ => k))
  (at level 100, right associativity) : proc_scope.
Local Open Scope proc_scope.

(** ** The environment *)

Record Env (W : Type) := {
  argv : W -> list string;
  question : string -> W -> string * W;
  getDefaultQueue : string -> W -> Result QueueAccount * W;
  loadData : QueueAccount -> W -> Result unit * W;
  asV0Tx : V0TxRequest -> W -> Result VersionedTransaction * W;
  simulateTransaction :
    Connection -> VersionedTransaction -> TxOpts ->
    W -> Result SimulatedTransactionResponse * W;
  sendTransaction :
    Connection -> VersionedTransaction -> TxOpts -> W -> Result Signature * W;
  confirmTransaction :
    Connection -> Signature -> Commitment -> W -> Result SignatureResult * W;
  getBalance : Connection -> PublicKey -> W -> Result Z * W;
  getMinimumBalanceForRentExemption :
    Connection -> Z -> W -> Result Z * W;
  instruction :
    Program -> Method -> Accounts -> W -> Result TransactionInstruction * W
}.
Arguments argv {W}.
Arguments question {W}.
Arguments getDefaultQueue {W}.
Arguments loadData {W}.
Arguments asV0Tx {W}.
Arguments simulateTransaction {W}.
Arguments sendTransaction {W}.
Arguments confirmTransaction {W}.
Arguments getBalance {W}.
Arguments getMinimumBalanceForRentExemption {W}.
Arguments instruction {W}.

(** The text ['Please provide a valid guess: "heads" or "tails".'] *)
Definition invalidGuessMessage : string :=
  let q := String (ascii_of_nat 34) EmptyString in
  "Please provide a valid guess: " ++ q ++ "heads" ++ q ++ " or "
    ++ q ++ "tails" ++ q ++ ".".

(** [SystemProgram.programId] *)
Definition SystemProgram_programId : PublicKey :=
  "11111111111111111111111111111111".

(** [SystemProgram.transfer]: the amount is encoded as an unsigned 64-bit
    integer, and the call throws on a number that is not one.  (Only
    positive amounts reach it in this client.) *)
Definition SystemProgram_transfer (fromPubkey toPubkey : PublicKey)
  (lamports : JsNumber.number) : Result TransactionInstruction :=
  match lamports with
  | JsNumber.Finite z =>
      if (0 <=? z) && (z <? 2 ^ 64)
      then Ok (SystemTransfer fromPubkey toPubkey z)
      else Err "RangeError: lamports is not an unsigned 64-bit integer"
  | _ => Err "RangeError: lamports is not an unsigned 64-bit integer"
  end.

(** A synchronous library call that returns or throws. *)
Definition attempt {W A} (r : Result A) : Proc W A :=
  fun w => mkRun (match r with Ok a => Returned a | Err e => Thrown e end) w [].

(** Line 13 of the source. *)
Definition COMMITMENT : Commitment := confirmed.

(** ** The client *)

Section Client.

Context {W : Type} (env : Env W).

(** [console.log] and [console.error] *)
Definition console_log (args : list string) : Proc W unit :=
  emit (EvLog args).
Definition console_error (args : list string) : Proc W unit :=
  emit (EvError args).

(** [reader.question(prompt)] *)
Definition reader_question (prompt : string) : Proc W string :=
  fun w =>
    let (answer, w') := question env prompt w in
    mkRun (Returned answer) w' [EvQuestion prompt answer].

(** [process.argv[i]] *)
Definition process_argv (i : nat) : Proc W (option string) :=
  fun w => mkRun (Returned (nth_error (argv env w) i)) w [].

Definition setupQueue (program : Program) : Proc W PublicKey :=
  queueAccount <-
    await (getDefaultQueue env (rpcEndpoint (connection (provider program))))
          (EvGetDefaultQueue (rpcEndpoint (connection (provider program)))) ;;
  console_log ["Queue account"; pubkey queueAccount] ;;
  tryCatch
    (await (loadData env queueAccount) (EvLoadData queueAccount))
    (fun _ =>
       console_error
         ["Queue not found, ensure you are using devnet in your env"] ;;
       processExit 1) ;;
  ret (pubkey queueAccount).

Definition getUserGuessFromCommandLine : Proc W bool :=
  arg <- process_argv 2 ;;
  userGuessInput <-
    (if JsString.falsy arg
     then
       answer <-
         reader_question
           "It is now time to make your prediction: Heads or tails... " ;;
       ret (JsString.toLowerCase (JsString.trim answer))
     else
       ret (match arg with Some s => s | None => EmptyString end)) ;;
  let isValidGuess :=
    String.eqb userGuessInput "heads" || String.eqb userGuessInput "tails" in
  (if negb isValidGuess
   then
     console_error [invalidGuessMessage] ;;
     processExit 1
   else ret tt) ;;
  ret (String.eqb userGuessInput "heads").

Definition handleTransaction
  (sbProgram : Program) (connection_ : Connection)
  (ix : list TransactionInstruction) (keypair : Keypair)
  (signers_ : list Keypair) (txOpts : TxOpts) : Proc W Signature :=
  let req := {| reqConnection := connection (provider sbProgram);
                ixs := ix;
                payer := publicKey keypair;
                signers := signers_;
                computeUnitPrice := 75000;
                computeUnitLimitMultiple := 13 # 10 |} in
  createTx <- await (asV0Tx env req) (EvBuild req) ;;
  sim <- await (simulateTransaction env connection_ createTx txOpts)
               (EvSimulate connection_ createTx txOpts) ;;
  sig <- await (sendTransaction env connection_ createTx txOpts)
               (EvSend connection_ createTx txOpts) ;;
  await (confirmTransaction env connection_ sig COMMITMENT)
        (EvConfirm connection_ sig COMMITMENT) ;;
  console_log ["  Transaction Signature"; sig] ;;
  ret sig.

(** [await program.methods.<method>.accounts(accounts).instruction()]: the
    Anchor builder is a call like the others, answered by the environment
    with an instruction or a rejection. *)
Definition buildInstruction (program : Program) (method : Method)
  (accounts : Accounts) : Proc W TransactionInstruction :=
  await (instruction env program method accounts)
        (EvInstruction program method accounts).

Definition initializeGame
  (myProgram : Program) (playerStateAccount : DerivedAccount)
  (escrowAccount_ : PublicKey) (keypair : Keypair)
  (sbProgram : Program) (connection_ : Connection) : Proc W unit :=
  initIx <-
    buildInstruction myProgram Initialize
      {| playerState := playerStateAccount;
         escrowAccount := escrowAccount_;
         user := publicKey keypair;
         systemProgram := SystemProgram_programId;
         randomnessAccountData := None |} ;;
  let txOpts := {| commitment := Some processed;
                   skipPreflight := Some true;
                   maxRetries := Some 0 |} in
  handleTransaction sbProgram connection_ [initIx] keypair [keypair] txOpts ;;
  ret tt.

Definition createCoinFlipInstruction
  (myProgram : Program) (rngKpPublicKey : PublicKey) (userGuess : bool)
  (playerStateAccount : DerivedAccount) (keypair : Keypair)
  (escrowAccount_ : PublicKey) : Proc W TransactionInstruction :=
  buildInstruction myProgram (CoinFlip rngKpPublicKey userGuess)
    {| playerState := playerStateAccount;
       user := publicKey keypair;
       randomnessAccountData := Some rngKpPublicKey;
       escrowAccount := escrowAccount_;
       systemProgram := SystemProgram_programId |}.

Definition settleFlipInstruction
  (myProgram : Program) (escrowBump : Z) (playerStateAccount : DerivedAccount)
  (rngKpPublicKey : PublicKey) (escrowAccount_ : PublicKey)
  (keypair : Keypair) : Proc W TransactionInstruction :=
  buildInstruction myProgram (SettleFlip escrowBump)
    {| playerState := playerStateAccount;
       randomnessAccountData := Some rngKpPublicKey;
       escrowAccount := escrowAccount_;
       user := publicKey keypair;
       systemProgram := SystemProgram_programId |}.

Definition ensureEscrowFunded
  (connection_ : Connection) (escrowAccount_ : PublicKey) (keypair : Keypair)
  (sbProgram : Program) (txOpts : TxOpts) : Proc W unit :=
  accountBalance <- await (getBalance env connection_ escrowAccount_)
                          (EvGetBalance connection_ escrowAccount_) ;;
  minRentExemption <-
    await (getMinimumBalanceForRentExemption env connection_ 0)
          (EvGetMinimumBalance connection_ 0) ;;
  let requiredBalance := minRentExemption in
  if accountBalance <? requiredBalance
  then
    let amountToFund := JsNumber.sub requiredBalance accountBalance in
    console_log
      ["Funding account with " ++ JsNumber.toString amountToFund
         ++ " lamports to meet rent exemption threshold."] ;;
    transferIx <-
      attempt
        (SystemProgram_transfer (publicKey keypair) escrowAccount_
           amountToFund) ;;
    let req := {| reqConnection := connection (provider sbProgram);
                  ixs := [transferIx];
                  payer := publicKey keypair;
                  signers := [keypair];
                  computeUnitPrice := 75000;
                  computeUnitLimitMultiple := 13 # 10 |} in
    transferTx <- await (asV0Tx env req) (EvBuild req) ;;
    sim3 <- await (simulateTransaction env connection_ transferTx txOpts)
                  (EvSimulate connection_ transferTx txOpts) ;;
    sig3 <- await (sendTransaction env connection_ transferTx txOpts)
                  (EvSend connection_ transferTx txOpts) ;;
    await (confirmTransaction env connection_ sig3 COMMITMENT)
          (EvConfirm connection_ sig3 COMMITMENT) ;;
    console_log ["  Transaction Signature "; sig3]
  else
    console_log ["  Escrow account funded already"].

End Client.

(** ** Reading traces *)

(** The requests handed to [sb.asV0Tx], in order. *)
Definition builds (tr : list Event) : list V0TxRequest :=
  flat_map (fun e => match e with EvBuild req _ => [req] | _ => [] end) tr.

(** The verdicts of the dry runs that answered. *)
Definition simulationVerdicts (tr : list Event) : list (option string) :=
  flat_map (fun e => match e with
                     | EvSimulate _ _ _ (Ok sim) => [simErr sim]
                     | _ => []
                     end) tr.

(** The transactions handed to [sendTransaction], in order. *)
Definition submitted (tr : list Event) : list VersionedTransaction :=
  flat_map (fun e => match e with EvSend _ tx _ _ => [tx] | _ => [] end) tr.

(** The options handed to [simulateTransaction] and [sendTransaction]. *)
Definition optionsUsed (tr : list Event) : list TxOpts :=
  flat_map (fun e => match e with
                     | EvSimulate _ _ o _ | EvSend _ _ o _ => [o]
                     | _ => []
                     end) tr.

(** The commitment levels handed to [confirmTransaction]. *)
Definition confirmLevels (tr : list Event) : list Commitment :=
  flat_map (fun e => match e with EvConfirm _ _ lvl _ => [lvl] | _ => [] end) tr.

(** The questions asked at the terminal. *)
Definition prompts (tr : list Event) : list string :=
  flat_map (fun e => match e with EvQuestion p _ => [p] | _ => [] end) tr.

(** Calls that leave the process for the cluster or the oracle. *)
Definition isNetworkEvent (e : Event) : bool :=
  match e with
  | EvQuestion _ _ | EvLog _ | EvError _ | EvExit _ => false
  | _ => true
  end.

Definition networkEvents (tr : list Event) : list Event :=
  filter isNetworkEvent tr.

(** The four steps of the transaction protocol. *)
Inductive Step := Build | Simulate | Submit | Confirm.

Definition steps (tr : list Event) : list Step :=
  flat_map (fun e => match e with
                     | EvBuild _ _ => [Build]
                     | EvSimulate _ _ _ _ => [Simulate]
                     | EvSend _ _ _ _ => [Submit]
                     | EvConfirm _ _ _ _ => [Confirm]
                     | _ => []
                     end) tr.

Definition protocol : list Step := [Build; Simulate; Submit; Confirm].

(** [r] with one more event in front. *)
Definition after {W A} (e : Event) (r : Run W A) : Run W A :=
  mkRun (outcome r) (world r) (e :: trace r).

(** The string the validation on line 100 sees: the command-line argument
    as it is, or the normalised answer to the prompt. *)
Definition validatedInput {W} (env : Env W) (w : W) : string :=
  match nth_error (argv env w) 2 with
  | Some (String c s) => String c s
  | _ =>
      JsString.toLowerCase
        (JsString.trim
           (fst (question env
                   "It is now time to make your prediction: Heads or tails... "
                   w)))
  end.

(** ** A reference environment

    A small cluster and terminal on which the client can be run: a ledger of
    lamports, a fixed rent-exemption minimum, an oracle queue that is or is
    not provisioned, and an on-chain program that accepts every transaction
    or rejects every one with a given error. *)

Module Devnet.

Record Cluster := {
  args : list string;
  typed : list string;
  queueProvisioned : bool;
  programVerdict : option string;
  lamportsOf : PublicKey -> Z;
  rentExemptMinimum : Z;
  sent : list VersionedTransaction
}.

Definition typeLine (w : Cluster) : string * Cluster :=
  (hd EmptyString (typed w),
   {| args := args w; typed := tl (typed w);
      queueProvisioned := queueProvisioned w;
      programVerdict := programVerdict w;
      lamportsOf := lamportsOf w;
      rentExemptMinimum := rentExemptMinimum w;
      sent := sent w |}).

Definition compile (req : V0TxRequest) : VersionedTransaction :=
  {| txInstructions :=
       SetComputeUnitPrice (computeUnitPrice req) :: ixs req;
     txPayer := payer req;
     txSigners := map publicKey (signers req);
     txBlockhash := "blockhash" |}.

Definition move (ix : TransactionInstruction) (bal : PublicKey -> Z)
  : PublicKey -> Z :=
  match ix with
  | SystemTransfer from to lamports =>
      fun k =>
        bal k + (if String.eqb k to then lamports else 0)
              - (if String.eqb k from then lamports else 0)
  | _ => bal
  end.

Definition execute (tx : VersionedTransaction) (w : Cluster) : Cluster :=
  {| args := args w; typed := typed w;
     queueProvisioned := queueProvisioned w;
     programVerdict := programVerdict w;
     lamportsOf := fold_right move (lamportsOf w) (txInstructions tx);
     rentExemptMinimum := rentExemptMinimum w;
     sent := sent w ++ [tx] |}.

Definition signatureOf (w : Cluster) : Signature :=
  "sig" ++ decimalDigits (Z.of_nat (length (sent w))).

Definition env : Env Cluster :=
  {| argv := args;
     question := fun _ w => typeLine w;
     getDefaultQueue := fun _ w => (Ok {| pubkey := "queue" |}, w);
     loadData := fun _ w =>
       (if queueProvisioned w then Ok tt else Err "Account not found", w);
     asV0Tx := fun req w => (Ok (compile req), w);
     simulateTransaction := fun _ _ _ w =>
       (Ok {| simErr := programVerdict w; simLogs := [] |}, w);
     sendTransaction := fun _ tx _ w => (Ok (signatureOf w), execute tx w);
     confirmTransaction := fun _ _ _ w =>
       (Ok {| sigErr := programVerdict w |}, w);
     getBalance := fun _ k w => (Ok (lamportsOf w k), w);
     getMinimumBalanceForRentExemption := fun _ _ w =>
       (Ok (rentExemptMinimum w), w);
     instruction := fun program method accounts w =>
       (Ok (ProgramCall (programId program) method accounts), w) |}.

Definition rpc : Connection := {| rpcEndpoint := "https://api.devnet.solana.com" |}.
Definition sbProgram : Program :=
  {| programId := "switchboard"; provider := {| connection := rpc |} |}.
Definition myProgram : Program :=
  {| programId := "coinflip"; provider := {| connection := rpc |} |}.
Definition player : Keypair :=
  {| publicKey := "player"; secretKey := "secret" |}.
Definition escrow : PublicKey := "escrow".
Definition playerStatePda : DerivedAccount := ("playerState", 254).
Definition opts : TxOpts :=
  {| commitment := Some processed; skipPreflight := Some true;
     maxRetries := Some 0 |}.

(** The player holds one SOL, the escrow nothing; 890880 lamports is the
    rent-exemption minimum of an account without data. *)
Definition genesis : Cluster :=
  {| args := ["node"; "index.ts"];
     typed := [];
     queueProvisioned := true;
     programVerdict := None;
     lamportsOf := fun k => if String.eqb k "player" then 1000000000 else 0;
     rentExemptMinimum := 890880;
     sent := [] |}.

Definition withArgs (l : list string) (w : Cluster) : Cluster :=
  {| args := l; typed := typed w;
     queueProvisioned := queueProvisioned w;
     programVerdict := programVerdict w;
     lamportsOf := lamportsOf w;
     rentExemptMinimum := rentExemptMinimum w;
     sent := sent w |}.

Definition withTyped (l : list string) (w : Cluster) : Cluster :=
  {| args := args w; typed := l;
     queueProvisioned := queueProvisioned w;
     programVerdict := programVerdict w;
     lamportsOf := lamportsOf w;
     rentExemptMinimum := rentExemptMinimum w;
     sent := sent w |}.

Definition withoutQueue (w : Cluster) : Cluster :=
  {| args := args w; typed := typed w;
     queueProvisioned := false;
     programVerdict := programVerdict w;
     lamportsOf := lamportsOf w;
     rentExemptMinimum := rentExemptMinimum w;
     sent := sent w |}.

Definition rejecting (e : string) (w : Cluster) : Cluster :=
  {| args := args w; typed := typed w;
     queueProvisioned := queueProvisioned w;
     programVerdict := Some e;
     lamportsOf := lamportsOf w;
     rentExemptMinimum := rentExemptMinimum w;
     sent := sent w |}.

(** A coin-flip instruction on "heads", and the error of a program that
    rejects it. *)
Definition flipIx : TransactionInstruction :=
  ProgramCall (programId myProgram) (CoinFlip "rng" true)
    {| playerState := playerStatePda;
       user := publicKey player;
       randomnessAccountData := Some "rng";
       escrowAccount := escrow;
       systemProgram := SystemProgram_programId |}.
Definition programError : string := "custom program error: 0x1770".

(** The cluster as [ts-node index.ts <guess>] finds it, and as a player
    who gave no argument and types [line] finds it. *)
Definition invokedWith (guess : string) : Cluster :=
  withArgs ["node"; "index.ts"; guess] genesis.
Definition answering (line : string) : Cluster := withTyped [line] genesis.

(** A cluster whose escrow holds [balance] lamports, whose rent-exemption
    minimum is [minimum], and whose player is rich. *)
Definition holding (balance minimum : Z) : Cluster :=
  {| args := args genesis; typed := typed genesis;
     queueProvisioned := queueProvisioned genesis;
     programVerdict := programVerdict genesis;
     lamportsOf := fun k => if String.eqb k escrow then balance
                            else if String.eqb k "player" then 2 ^ 62
                            else 0;
     rentExemptMinimum := minimum;
     sent := sent genesis |}.

End Devnet.

(** The argument object [handleTransaction] hands to [sb.asV0Tx]
    (lines 127-134). *)
Definition requestOf (sbProgram : Program) (ix : list TransactionInstruction)
  (keypair : Keypair) (signers_ : list Keypair) : V0TxRequest :=
  {| reqConnection := connection (provider sbProgram);
     ixs := ix;
     payer := publicKey keypair;
     signers := signers_;
     computeUnitPrice := 75000;
     computeUnitLimitMultiple := 13 # 10 |}.

(** The compute-budget parameters of a request are the fixed ones. *)
Definition budgeted (req : V0TxRequest) : Prop :=
  computeUnitPrice req = 75000 /\ computeUnitLimitMultiple req = 13 # 10.

(** The options [initializeGame] builds on lines 172-176. *)
Definition initializeOptions : TxOpts :=
  {| commitment := Some processed;
     skipPreflight := Some true;
     maxRetries := Some 0 |}.

(** The question asked on line 94. *)
Definition guessPrompt : string :=
  "It is now time to make your prediction: Heads or tails... ".

(** What lines 100-106 make of the string they are given. *)
Definition verdictOf (g : string) : Outcome bool :=
  if String.eqb g "heads" then Returned true
  else if String.eqb g "tails" then Returned false
  else Exited 1.

(** The events of lines 100-106 on the string they are given. *)
Definition complaintOf (g : string) : list Event :=
  if String.eqb g "heads" || String.eqb g "tails" then []
  else [EvError [invalidGuessMessage]; EvExit 1].

(** ** Loading the programs (lines 22-62)

    The three loaders call the key-file reader, the program-id lookup, the
    IDL fetch and the [anchor.Program] constructor.  These calls are
    answered by a [LoaderEnv] and recorded, in order, in a journal kept
    beside the state of the environment; the trace of the run keeps the
    console output. *)

Definition Idl := string.

Inductive LoaderCall :=
| CallInitKeypairFromFile (keypath : string)
| CallGetProgramId (c : Connection)
| CallFetchIdl (pid : PublicKey) (p : Provider)
| CallNewProgram (idl : option Idl) (p : Provider).

Record LoaderEnv (W : Type) := {
  initKeypairFromFile : string -> W -> Result Keypair * W;
  getProgramId : Connection -> W -> Result PublicKey * W;
  fetchIdl : PublicKey -> Provider -> W -> Result (option Idl) * W;
  newProgram : option Idl -> Provider -> W -> Result Program * W
}.
Arguments initKeypairFromFile {W}.
Arguments getProgramId {W}.
Arguments fetchIdl {W}.
Arguments newProgram {W}.

(** One call of a loader: answered by the environment and journalled; a
    rejection, or an exception of the constructor, becomes an exception. *)
Definition invoke {W A} (c : LoaderCall) (f : W -> Result A * W)
  : Proc (W * list LoaderCall) A :=
  fun s =>
    let (r, w') := f (fst s) in
    mkRun (match r with Ok a => Returned a | Err e => Thrown e end)
          (w', (snd s ++ [c])%list) [].

Section Loaders.

Context {W : Type} (lenv : LoaderEnv W).

(** The non-null assertion [!] on the fetched IDL is erased at run time:
    what [fetchIdl] answered, [null] included, is what the constructor
    receives. *)
Definition myAnchorProgram (provider_ : Provider) (keypath : string)
  : Proc (W * list LoaderCall) Program :=
  myProgramKeypair <-
    invoke (CallInitKeypairFromFile keypath)
           (initKeypairFromFile lenv keypath) ;;
  let pid := publicKey myProgramKeypair in
  idl <- invoke (CallFetchIdl pid provider_) (fetchIdl lenv pid provider_) ;;
  program <-
    invoke (CallNewProgram idl provider_) (newProgram lenv idl provider_) ;;
  ret program.

Definition loadSbProgram (provider_ : Provider)
  : Proc (W * list LoaderCall) Program :=
  sbProgramId <-
    invoke (CallGetProgramId (connection provider_))
           (getProgramId lenv (connection provider_)) ;;
  sbIdl <-
    invoke (CallFetchIdl sbProgramId provider_)
           (fetchIdl lenv sbProgramId provider_) ;;
  sbProgram <-
    invoke (CallNewProgram sbIdl provider_) (newProgram lenv sbIdl provider_) ;;
  ret sbProgram.


End Loaders.

(** ** More readings of traces *)

(** Everything written to the console, by [console.log] or by
    [console.error], in order. *)
Definition console (tr : list Event) : list Event :=
  filter (fun e => match e with EvLog _ | EvError _ => true | _ => false end)
         tr.

(** The transactions the network took, with the signatures it gave. *)
Definition delivered (tr : list Event)
  : list (VersionedTransaction * Signature) :=
  flat_map (fun e => match e with
                     | EvSend _ tx _ (Ok sig) => [(tx, sig)]
                     | _ => []
                     end) tr.

(** The calls of the Anchor instruction builder, in order. *)
Definition instructionCalls (tr : list Event)
  : list (Program * Method * Accounts) :=
  flat_map (fun e => match e with
                     | EvInstruction p m a _ => [(p, m, a)]
                     | _ => []
                     end) tr.

(** The funding line of line 273 for the amount [x]. *)
Definition fundingLine (x : JsNumber.number) : string :=
  "Funding account with " ++ JsNumber.toString x
    ++ " lamports to meet rent exemption threshold.".

(** The arguments of the [console.log] calls, in order. *)
Definition logged (tr : list Event) : list (list string) :=
  flat_map (fun e => match e with EvLog args => [args] | _ => [] end) tr.

(** The connections on which transactions are simulated, sent and
    confirmed. *)
Definition rpcConnections (tr : list Event) : list Connection :=
  flat_map (fun e => match e with
                     | EvSimulate c _ _ _ | EvSend c _ _ _
                     | EvConfirm c _ _ _ => [c]
                     | _ => []
                     end) tr.

(** The balance reads and the rent-exemption reads, in order. *)
Definition balanceReads (tr : list Event) : list (Connection * PublicKey) :=
  flat_map (fun e => match e with
                     | EvGetBalance c k _ => [(c, k)]
                     | _ => []
                     end) tr.

Definition minimumReads (tr : list Event) : list (Connection * Z) :=
  flat_map (fun e => match e with
                     | EvGetMinimumBalance c n _ => [(c, n)]
                     | _ => []
                     end) tr.

(** A request that funds [escrow] from [keypair]: one System transfer of a
    positive amount, paid and signed by the keypair. *)
Definition fundingRequest (keypair : Keypair) (escrow : PublicKey)
  (req : V0TxRequest) : Prop :=
  exists amount,
    0 < amount /\
    ixs req = [SystemTransfer (publicKey keypair) escrow amount] /\
    payer req = publicKey keypair /\
    signers req = [keypair].

(** The result of a run with its value forgotten. *)
Definition forget {A} (o : Outcome A) : Outcome unit :=
  match o with
  | Returned _ => Returned tt
  | Thrown e => Thrown e
  | Exited c => Exited c
  end.

(** Strings made of white space only. *)
Fixpoint allWhiteSpace (s : string) : bool :=
  match s with
  | EmptyString => true
  | String c r => JsString.isWhiteSpace c && allWhiteSpace r
  end.

(** ** An environment with outages

    The reference cluster, with any of its services able to be down: a call
    to a service that is down rejects and changes nothing. *)

Module Outage.

Inductive Service :=
| QueueLookup | Builder | Simulator | Sender | Confirmer
| BalanceReader | RentReader | InstructionBuilder.

Definition unavailable : string := "service unavailable".

Definition guard {A} (down : bool) (f : Devnet.Cluster -> Result A * Devnet.Cluster)
  : Devnet.Cluster -> Result A * Devnet.Cluster :=
  fun w => if down then (Err unavailable, w) else f w.

Definition env (down : Service -> bool) : Env Devnet.Cluster :=
  {| argv := argv Devnet.env;
     question := question Devnet.env;
     getDefaultQueue := fun ep =>
       guard (down QueueLookup) (getDefaultQueue Devnet.env ep);
     loadData := loadData Devnet.env;
     asV0Tx := fun req => guard (down Builder) (asV0Tx Devnet.env req);
     simulateTransaction := fun c tx o =>
       guard (down Simulator) (simulateTransaction Devnet.env c tx o);
     sendTransaction := fun c tx o =>
       guard (down Sender) (sendTransaction Devnet.env c tx o);
     confirmTransaction := fun c s l =>
       guard (down Confirmer) (confirmTransaction Devnet.env c s l);
     getBalance := fun c k =>
       guard (down BalanceReader) (getBalance Devnet.env c k);
     getMinimumBalanceForRentExemption := fun c n =>
       guard (down RentReader)
             (getMinimumBalanceForRentExemption Devnet.env c n);
     instruction := fun program method accounts =>
       guard (down InstructionBuilder)
             (instruction Devnet.env program method accounts) |}.

Definition only (s : Service) : Service -> bool :=
  fun s' =>
    match s, s' with
    | QueueLookup, QueueLookup | Builder, Builder | Simulator, Simulator
    | Sender, Sender | Confirmer, Confirmer
    | BalanceReader, BalanceReader | RentReader, RentReader
    | InstructionBuilder, InstructionBuilder => true
    | _, _ => false
    end.

End Outage.

(** ** A workstation for the loaders

    A key file at the path the client reads, a program id for the oracle,
    and an IDL account that is or is not published; the constructor rejects
    a missing IDL. *)

Module Workstation.

Record Disk := {
  keyFiles : list (string * Keypair);
  idlPublished : bool
}.

Fixpoint readKey (files : list (string * Keypair)) (path : string)
  : Result Keypair :=
  match files with
  | [] => Err "ENOENT: no such file or directory"
  | (p, k) :: rest => if String.eqb p path then Ok k else readKey rest path
  end.

Definition lenv : LoaderEnv Disk :=
  {| initKeypairFromFile := fun path d => (readKey (keyFiles d) path, d);
     getProgramId := fun _ d => (Ok "switchboard", d);
     fetchIdl := fun pid _ d =>
       (Ok (if idlPublished d then Some (String.append "idl of " pid) else None),
        d);
     newProgram := fun idl p d =>
       (match idl with
        | Some i =>
            Ok {| programId := substring 7 (String.length i) i;
                  provider := p |}
        | None => Err "TypeError: Cannot read properties of null"
        end, d) |}.

Definition gameKey : Keypair :=
  {| publicKey := "coinflip"; secretKey := "program secret" |}.

Definition deployed : Disk :=
  {| keyFiles :=
       [("sb-randomness/target/deploy/sb_randomness-keypair.json", gameKey)];
     idlPublished := true |}.

Definition unpublished : Disk :=
  {| keyFiles := keyFiles deployed; idlPublished := false |}.

Definition fresh : Disk := {| keyFiles := []; idlPublished := true |}.

Definition wallet : Provider := {| connection := Devnet.rpc |}.

(** The same workstation without a route to the cluster: the lookup of the
    oracle program's id rejects. *)
Definition offline : LoaderEnv Disk :=
  {| initKeypairFromFile := initKeypairFromFile lenv;
     getProgramId := fun _ d => (Err "fetch failed", d);
     fetchIdl := fetchIdl lenv;
     newProgram := newProgram lenv |}.

End Workstation.

(** * Properties *)

Example trim_example : JsString.trim "  Heads  " = "Heads".
Proof. reflexivity. Qed.

Example lower_example : JsString.toLowerCase "HeAdS" = "heads".
Proof. reflexivity. Qed.

Example number_example :
  map (fun z => JsNumber.toString (JsNumber.ofExact z))
    [0; 890880; 2 ^ 53 + 1; 2 ^ 60 - 1; 10 ^ 21; 2 ^ 70; 2 ^ 1024]
  = ["0"; "890880"; "9007199254740992"; "1152921504606847000"; "1e+21";
     "1.1805916207174113e+21"; "Infinity"].
Proof. vm_compute. reflexivity. Qed.

(** ** Laws of the process monad *)

Section Laws.

Context {W : Type}.

Lemma bind_await_ok {A B} (f : W -> Result A * W) ev (k : A -> Proc W B) w a w' :
  f w = (Ok a, w') ->
  bind (await f ev) k w = after (ev (Ok a)) (k a w').
Proof. intros H. unfold bind, await, after. rewrite H. reflexivity. Qed.

Lemma bind_await_err {A B} (f : W -> Result A * W) ev (k : A -> Proc W B) w e w' :
  f w = (Err e, w') ->
  bind (await f ev) k w = mkRun (Thrown e) w' [ev (Err e)].
Proof. intros H. unfold bind, await. rewrite H. reflexivity. Qed.

Lemma bind_emit {B} e (k : unit -> Proc W B) w :
  bind (emit e) k w = after e (k tt w).
Proof. reflexivity. Qed.

Lemma bind_ret {A B} (a : A) (k : A -> Proc W B) w :
  bind (ret a) k w = k a w.
Proof. unfold bind, ret. simpl. destruct (k a w). reflexivity. Qed.

Lemma bind_attempt {A B} (r : Result A) (k : A -> Proc W B) w :
  bind (attempt r) k w
  = match r with
    | Ok a => k a w
    | Err e => mkRun (Thrown e) w []
    end.
Proof.
  unfold bind, attempt. destruct r as [a|e]; simpl; [| reflexivity].
  destruct (k a w). reflexivity.
Qed.

Lemma bind_exit {A B} c (k : A -> Proc W B) w :
  bind (processExit c) k w = mkRun (Exited c) w [EvExit c].
Proof. reflexivity. Qed.

Lemma bind_assoc {A B C} (m : Proc W A) (k : A -> Proc W B) (h : B -> Proc W C) w :
  bind (bind m k) h w = bind m (fun a => bind (k a) h) w.
Proof.
  unfold bind. destruct (m w) as [[a|e|c] w1 t1]; simpl; try reflexivity.
  destruct (k a w1) as [[b|e|c] w2 t2]; simpl; try reflexivity.
  rewrite app_assoc. reflexivity.
Qed.

Lemma trace_bind {A B} (m : Proc W A) (k : A -> Proc W B) w :
  trace (bind m k w) =
  (trace (m w) ++ match outcome (m w) with
                  | Returned a => trace (k a (world (m w)))
                  | _ => []
                  end)%list.
Proof.
  unfold bind. destruct (m w) as [[a|e|c] w1 t1]; simpl;
    rewrite ?app_nil_r; reflexivity.
Qed.

End Laws.

(** One awaited call: use its answer when it is known, split on it
    otherwise, and step the run. *)
Ltac await_step :=
  match goal with
  | H : ?f ?w = (Ok ?a, ?w') |- context [bind (await ?f ?ev) ?k ?w] =>
      rewrite (bind_await_ok f ev k w a w' H)
  | H : ?f ?w = (Err ?a, ?w') |- context [bind (await ?f ?ev) ?k ?w] =>
      rewrite (bind_await_err f ev k w a w' H)
  | |- context [bind (await ?f ?ev) ?k ?w] =>
      let a := fresh "a" in
      let w' := fresh "w" in
      let H := fresh "Hcall" in
      destruct (f w) as [[a|a] w'] eqn:H;
      [ rewrite (bind_await_ok f ev k w a w' H)
      | rewrite (bind_await_err f ev k w a w' H) ]
  end.

(** A library call that returns or throws: use its result when it is
    known, split on it otherwise. *)
Ltac attempt_step :=
  match goal with
  | H : ?r = Ok ?a |- context [bind (attempt ?r) ?k ?w] =>
      rewrite (bind_attempt r k w), H
  | H : ?r = Err ?e |- context [bind (attempt ?r) ?k ?w] =>
      rewrite (bind_attempt r k w), H
  | |- context [bind (attempt ?r) ?k ?w] =>
      let H := fresh "Hattempt" in
      rewrite (bind_attempt r k w); destruct r eqn:H
  end.

Ltac run_all :=
  cbv zeta; unfold console_log, console_error, buildInstruction;
  repeat (first [ progress cbv beta zeta
                | rewrite bind_emit | rewrite bind_ret
                | await_step | attempt_step ]);
  unfold emit, ret;
  cbn [after outcome world trace].

(** An awaited call whose answer is known. *)
Ltac await_with H :=
  first [ rewrite (bind_await_ok _ _ _ _ _ _ H)
        | rewrite (bind_await_err _ _ _ _ _ _ H) ].

(** ** handleTransaction *)

Section HandleTransaction.

Context {W : Type} (env : Env W).
Variables (sbProgram : Program) (conn : Connection).
Variables (ix : list TransactionInstruction) (keypair : Keypair).
Variables (sg : list Keypair) (opts : TxOpts).

(** The first call of every run is the build, with the request of lines
    127-134, whatever the environment answers. *)
Lemma handleTransaction_builds w :
  builds (trace (handleTransaction env sbProgram conn ix keypair sg opts w))
  = [requestOf sbProgram ix keypair sg].
Proof.
  unfold handleTransaction. run_all; reflexivity.
Qed.

Lemma handleTransaction_confirmLevels w :
  Forall (eq confirmed)
    (confirmLevels
       (trace (handleTransaction env sbProgram conn ix keypair sg opts w))).
Proof.
  unfold handleTransaction. run_all; repeat constructor.
Qed.

Lemma handleTransaction_optionsUsed w :
  Forall (eq opts)
    (optionsUsed
       (trace (handleTransaction env sbProgram conn ix keypair sg opts w))).
Proof.
  unfold handleTransaction. run_all; repeat constructor.
Qed.

(** C1 (amended).  handleTransaction runs the dry run but never inspects its
    verdict: once the build and the simulateTransaction call have answered,
    whether the simulated result reports an error or not, the built
    transaction is handed to sendTransaction as the next call, and it is the
    only transaction submitted.  Submission is skipped only when the
    simulateTransaction call itself rejects; that exception then escapes. *)
Theorem handleTransaction_ignores_simulation_verdict :
  forall w tx w1 rs w2,
    asV0Tx env (requestOf sbProgram ix keypair sg) w = (Ok tx, w1) ->
    simulateTransaction env conn tx opts w1 = (rs, w2) ->
    let r := handleTransaction env sbProgram conn ix keypair sg opts w in
    match rs with
    | Ok sim =>
        submitted (trace r) = [tx] /\
        exists rest,
          trace r =
          EvBuild (requestOf sbProgram ix keypair sg) (Ok tx)
            :: EvSimulate conn tx opts (Ok sim)
            :: EvSend conn tx opts (fst (sendTransaction env conn tx opts w2))
            :: rest
    | Err e => outcome r = Thrown e /\ submitted (trace r) = []
    end.
Proof.
  intros w tx w1 rs w2 Hb Hs. unfold requestOf in *.
  unfold handleTransaction. cbv zeta.
  await_with Hb. destruct rs as [sim|e]; await_with Hs.
  - run_all; (split; [reflexivity | eexists; reflexivity]).
  - split; reflexivity.
Qed.

(** C6.  The calls of a run are always an initial part of Build, Simulate,
    Submit, Confirm, in that order, so no step runs unless all the steps
    before it have run; a run whose four calls answer returns; and a run
    that returns has made all four calls and returns the signature that
    sendTransaction gave and confirmTransaction was asked about. *)
Theorem handleTransaction_protocol :
  forall w,
    let r := handleTransaction env sbProgram conn ix keypair sg opts w in
    let req := requestOf sbProgram ix keypair sg in
    (exists n, steps (trace r) = firstn n protocol) /\
    (forall tx w1 sim w2 sig w3 res w4,
        asV0Tx env req w = (Ok tx, w1) ->
        simulateTransaction env conn tx opts w1 = (Ok sim, w2) ->
        sendTransaction env conn tx opts w2 = (Ok sig, w3) ->
        confirmTransaction env conn sig COMMITMENT w3 = (Ok res, w4) ->
        outcome r = Returned sig) /\
    (forall sig,
        outcome r = Returned sig ->
        steps (trace r) = protocol /\
        exists tx sim res,
          trace r =
          [EvBuild req (Ok tx);
           EvSimulate conn tx opts (Ok sim);
           EvSend conn tx opts (Ok sig);
           EvConfirm conn sig COMMITMENT (Ok res);
           EvLog ["  Transaction Signature"; sig]]).
Proof.
  intros w r req. subst r req. unfold requestOf.
  split; [| split].
  - unfold handleTransaction. run_all.
    + exists 4%nat. reflexivity.
    + exists 4%nat. reflexivity.
    + exists 3%nat. reflexivity.
    + exists 2%nat. reflexivity.
    + exists 1%nat. reflexivity.
  - intros tx w1 sim w2 sig w3 res w4 Hb Hs Hd Hc.
    unfold handleTransaction. cbv zeta.
    await_with Hb. await_with Hs. await_with Hd. await_with Hc.
    reflexivity.
  - intros sig. unfold handleTransaction. run_all;
      intros Hr; try discriminate Hr.
    injection Hr as <-. split; [reflexivity |].
    do 3 eexists. reflexivity.
Qed.

End HandleTransaction.

(** ** getUserGuessFromCommandLine *)

Section Guess.

Context {W : Type} (env : Env W).

Lemma bind_process_argv {B} i (k : option string -> Proc W B) w :
  bind (process_argv env i) k w = k (nth_error (argv env w) i) w.
Proof.
  unfold bind, process_argv. simpl.
  destruct (k (nth_error (argv env w) i) w). reflexivity.
Qed.

Lemma bind_question {B} p (k : string -> Proc W B) w answer w' :
  question env p w = (answer, w') ->
  bind (reader_question env p) k w = after (EvQuestion p answer) (k answer w').
Proof.
  intros H. unfold bind, reader_question, after. rewrite H. reflexivity.
Qed.

Lemma validation_run (g : string) (k : W) :
  bind
    (if negb (String.eqb g "heads" || String.eqb g "tails")
     then bind (console_error [invalidGuessMessage]) (fun _ => processExit 1)
     else ret tt)
    (fun _ => ret (String.eqb g "heads")) k
  = mkRun (verdictOf g) k (complaintOf g).
Proof.
  unfold verdictOf, complaintOf.
  destruct (String.eqb g "heads") eqn:Hh; simpl.
  - reflexivity.
  - destruct (String.eqb g "tails"); reflexivity.
Qed.

(** The run on the command-line path: no question is asked and the
    argument is validated as it is. *)
Lemma guess_run_argument w c s :
  nth_error (argv env w) 2 = Some (String c s) ->
  getUserGuessFromCommandLine env w
  = mkRun (verdictOf (String c s)) w (complaintOf (String c s)).
Proof.
  intros H. unfold getUserGuessFromCommandLine.
  rewrite bind_process_argv, H.
  cbn [JsString.falsy String.eqb]. rewrite bind_ret.
  apply validation_run.
Qed.

(** The run on the prompt path: one question, and the answer is trimmed
    and lower-cased before it is validated. *)
Lemma guess_run_prompt w answer w' :
  JsString.falsy (nth_error (argv env w) 2) = true ->
  question env guessPrompt w = (answer, w') ->
  getUserGuessFromCommandLine env w
  = mkRun (verdictOf (JsString.toLowerCase (JsString.trim answer))) w'
      (EvQuestion guessPrompt answer
         :: complaintOf (JsString.toLowerCase (JsString.trim answer))).
Proof.
  intros Hf Hq. unfold getUserGuessFromCommandLine.
  rewrite bind_process_argv, Hf. rewrite bind_assoc.
  fold guessPrompt. rewrite (bind_question _ _ _ _ _ Hq).
  rewrite bind_ret, validation_run. reflexivity.
Qed.

Lemma falsy_cases (v : option string) :
  (JsString.falsy v = true /\ (v = None \/ v = Some EmptyString))
  \/ (exists c s, v = Some (String c s)).
Proof.
  destruct v as [[|c s]|]; simpl; eauto.
Qed.

Lemma validatedInput_argument w c s :
  nth_error (argv env w) 2 = Some (String c s) ->
  validatedInput env w = String c s.
Proof. intros H. unfold validatedInput. rewrite H. reflexivity. Qed.

Lemma validatedInput_prompt w :
  JsString.falsy (nth_error (argv env w) 2) = true ->
  validatedInput env w
  = JsString.toLowerCase (JsString.trim (fst (question env guessPrompt w))).
Proof.
  intros H. unfold validatedInput, guessPrompt.
  destruct (nth_error (argv env w) 2) as [[|c s]|]; try reflexivity.
  discriminate H.
Qed.

(** On both paths the result is the verdict on the validated string, and
    the only events are the question, if any, and the complaint, if any. *)
Lemma guess_outcome w :
  outcome (getUserGuessFromCommandLine env w) = verdictOf (validatedInput env w)
  /\ exists pre,
       trace (getUserGuessFromCommandLine env w)
       = (pre ++ complaintOf (validatedInput env w))%list
       /\ networkEvents pre = [].
Proof.
  destruct (falsy_cases (nth_error (argv env w) 2)) as [[Hf _]|(c & s & Hs)].
  - destruct (question env guessPrompt w) as [answer w'] eqn:Hq.
    rewrite (guess_run_prompt w answer w' Hf Hq).
    rewrite (validatedInput_prompt w Hf), Hq. cbn [fst outcome trace].
    split; [reflexivity |].
    exists [EvQuestion guessPrompt answer]. split; reflexivity.
  - rewrite (guess_run_argument w c s Hs).
    rewrite (validatedInput_argument w c s Hs). cbn [outcome trace].
    split; [reflexivity |]. exists []. split; reflexivity.
Qed.

Lemma verdictOf_true g : verdictOf g = Returned true <-> g = "heads".
Proof.
  unfold verdictOf. destruct (String.eqb_spec g "heads") as [->|Hn].
  - split; reflexivity.
  - destruct (String.eqb g "tails"); split; intros H;
      try discriminate H; contradiction.
Qed.

Lemma verdictOf_false g : verdictOf g = Returned false <-> g = "tails".
Proof.
  unfold verdictOf. destruct (String.eqb_spec g "heads") as [->|Hn].
  - split; intros H; discriminate H.
  - destruct (String.eqb_spec g "tails") as [->|Ht].
    + split; reflexivity.
    + split; intros H; try discriminate H; contradiction.
Qed.

Lemma verdictOf_other g :
  g <> "heads" -> g <> "tails" ->
  verdictOf g = Exited 1
  /\ complaintOf g = [EvError [invalidGuessMessage]; EvExit 1].
Proof.
  intros Hh Ht. unfold verdictOf, complaintOf.
  destruct (String.eqb_spec g "heads"); [contradiction |].
  destruct (String.eqb_spec g "tails"); [contradiction |].
  split; reflexivity.
Qed.

Lemma complaintOf_network g : networkEvents (complaintOf g) = [].
Proof.
  unfold complaintOf.
  destruct (String.eqb g "heads" || String.eqb g "tails"); reflexivity.
Qed.

End Guess.

Section GuessProperties.

Context {W : Type} (env : Env W).

Lemma complaintOf_prompts g : prompts (complaintOf g) = [].
Proof.
  unfold complaintOf.
  destruct (String.eqb g "heads" || String.eqb g "tails"); reflexivity.
Qed.

(** What the code does on its two input paths.  When the argument is
    absent or empty and the answer to the prompt, trimmed and lower-cased,
    is "heads", the result is true, and for "tails" it is false.  A
    non-empty command-line argument is accepted only when it is exactly
    "heads" or "tails": the normalisation of the prompt path is not applied
    to it. *)
Theorem guess_normalised_at_prompt_only :
  forall w,
    let r := getUserGuessFromCommandLine env w in
    (forall answer w',
        JsString.falsy (nth_error (argv env w) 2) = true ->
        question env guessPrompt w = (answer, w') ->
        (JsString.toLowerCase (JsString.trim answer) = "heads" ->
         outcome r = Returned true) /\
        (JsString.toLowerCase (JsString.trim answer) = "tails" ->
         outcome r = Returned false)) /\
    (forall c s,
        nth_error (argv env w) 2 = Some (String c s) ->
        (outcome r = Returned true <-> String c s = "heads") /\
        (outcome r = Returned false <-> String c s = "tails")).
Proof.
  intros w r. subst r. split.
  - intros answer w' Hf Hq. rewrite (guess_run_prompt env w answer w' Hf Hq).
    cbn [outcome]. split; intros ->; reflexivity.
  - intros c s Hs. rewrite (guess_run_argument env w c s Hs). cbn [outcome].
    split; [apply verdictOf_true | apply verdictOf_false].
Qed.

(** C3.  The validated string decides the result: "heads" gives true,
    "tails" gives false, and every other string ends the process with exit
    code 1 after the complaint on the error stream; no run of the function
    makes a network call. *)
Theorem guess_validation :
  forall w,
    let r := getUserGuessFromCommandLine env w in
    let g := validatedInput env w in
    (g = "heads" -> outcome r = Returned true) /\
    (g = "tails" -> outcome r = Returned false) /\
    (g <> "heads" -> g <> "tails" ->
     outcome r = Exited 1 /\
     exists pre,
       trace r = (pre ++ [EvError [invalidGuessMessage]; EvExit 1])%list) /\
    networkEvents (trace r) = [].
Proof.
  intros w r g. subst r g.
  destruct (guess_outcome env w) as (Ho & pre & Ht & Hn).
  rewrite Ho, Ht. repeat split.
  - intros ->. reflexivity.
  - intros ->. reflexivity.
  - apply verdictOf_other; assumption.
  - exists pre. f_equal. apply verdictOf_other; assumption.
  - unfold networkEvents in *. rewrite filter_app, Hn.
    apply complaintOf_network.
Qed.

(** C10.  An argument that is present but empty is treated like a missing
    one: the question is asked and the answer, trimmed and lower-cased, is
    what gets validated.  A non-empty argument is validated exactly as it
    was given, and no question is asked. *)
Theorem empty_argument_falls_back_to_prompt :
  forall w,
    let r := getUserGuessFromCommandLine env w in
    (forall answer w',
        nth_error (argv env w) 2 = Some EmptyString ->
        question env guessPrompt w = (answer, w') ->
        prompts (trace r) = [guessPrompt] /\
        validatedInput env w = JsString.toLowerCase (JsString.trim answer) /\
        outcome r = verdictOf (JsString.toLowerCase (JsString.trim answer))) /\
    (forall c s,
        nth_error (argv env w) 2 = Some (String c s) ->
        prompts (trace r) = [] /\
        validatedInput env w = String c s /\
        outcome r = verdictOf (String c s)).
Proof.
  intros w r. subst r. split.
  - intros answer w' Ha Hq.
    assert (Hf : JsString.falsy (nth_error (argv env w) 2) = true)
      by (rewrite Ha; reflexivity).
    rewrite (guess_run_prompt env w answer w' Hf Hq).
    rewrite (validatedInput_prompt env w Hf), Hq.
    cbn [outcome trace fst prompts flat_map].
    fold (prompts (complaintOf (JsString.toLowerCase (JsString.trim answer)))).
    rewrite complaintOf_prompts. repeat split.
  - intros c s Hs. rewrite (guess_run_argument env w c s Hs).
    rewrite (validatedInput_argument env w c s Hs). cbn [outcome trace].
    rewrite complaintOf_prompts. repeat split.
Qed.

End GuessProperties.

(** ** setupQueue *)

Section SetupQueue.

Context {W : Type} (env : Env W).

Lemma bind_tryCatch_await {A B} (f : W -> Result A * W) ev
  (h : string -> Proc W A) (k : A -> Proc W B) w :
  bind (tryCatch (await f ev) h) k w
  = match f w with
    | (Ok a, w') => after (ev (Ok a)) (k a w')
    | (Err e, w') => after (ev (Err e)) (bind (h e) k w')
    end.
Proof.
  unfold bind, tryCatch, await, after.
  destruct (f w) as [[a|e] w']; cbn [outcome world trace].
  - reflexivity.
  - destruct (h e w') as [[a|e'|c] w2 t2]; reflexivity.
Qed.

(** C8.  Once the default queue has been looked up, a failing load ends the
    process: the load is attempted once, the diagnostic goes to the error
    stream, and the process exits with code 1 instead of returning.  A load
    that succeeds makes the function return the queue's public key. *)
Theorem setupQueue_load :
  forall program w q w1 rl w2,
    let endpoint := rpcEndpoint (connection (provider program)) in
    getDefaultQueue env endpoint w = (Ok q, w1) ->
    loadData env q w1 = (rl, w2) ->
    let r := setupQueue env program w in
    match rl with
    | Err e =>
        outcome r = Exited 1 /\
        trace r =
        [EvGetDefaultQueue endpoint (Ok q);
         EvLog ["Queue account"; pubkey q];
         EvLoadData q (Err e);
         EvError ["Queue not found, ensure you are using devnet in your env"];
         EvExit 1]
    | Ok _ =>
        outcome r = Returned (pubkey q) /\
        trace r =
        [EvGetDefaultQueue endpoint (Ok q);
         EvLog ["Queue account"; pubkey q];
         EvLoadData q rl]
    end.
Proof.
  intros program w q w1 rl w2 endpoint Hq Hl r. subst r endpoint.
  unfold setupQueue. await_with Hq.
  unfold console_log. rewrite bind_emit.
  rewrite bind_tryCatch_await, Hl.
  destruct rl as [u|e].
  - split; reflexivity.
  - unfold console_error. rewrite bind_assoc, bind_emit.
    split; reflexivity.
Qed.

End SetupQueue.

(** ** ensureEscrowFunded *)

(** ** Lamport amounts as JavaScript numbers *)

Section Numbers.

Lemma maxValue_large : 2 ^ 64 <= JsNumber.maxValue.
Proof. unfold Z.le. vm_compute. discriminate. Qed.

(** Safe integers are not rounded. *)
Lemma nearest_safe z :
  Z.abs z <= JsNumber.maxSafeInteger -> JsNumber.nearest z = z.
Proof.
  intros H. unfold JsNumber.nearest. cbv zeta.
  destruct (Z.ltb_spec (Z.log2 (Z.abs z)) 53) as [_|Hge]; [reflexivity |].
  exfalso. unfold JsNumber.maxSafeInteger in H.
  destruct (Z.eq_dec (Z.abs z) 0) as [H0|H0].
  - rewrite H0 in Hge. simpl in Hge. lia.
  - assert (Hpos : 0 < Z.abs z) by lia.
    pose proof (proj1 (Z.log2_lt_pow2 (Z.abs z) 53 Hpos)) as Hlog. lia.
Qed.

(** Rounding keeps a positive amount positive. *)
Lemma nearest_pos z : 0 < z -> 0 < JsNumber.nearest z.
Proof.
  intros Hz. unfold JsNumber.nearest. cbv zeta.
  rewrite (Z.abs_eq z) by lia. rewrite (Z.sgn_pos z Hz).
  destruct (Z.ltb_spec (Z.log2 z) 53) as [_|Hge]; [exact Hz |].
  assert (Hsh : 0 <= Z.log2 z - 52) by lia.
  rewrite Z.mul_1_l, Z.shiftl_mul_pow2 by exact Hsh.
  assert (Hpow : 0 < 2 ^ (Z.log2 z - 52))
    by (apply Z.pow_pos_nonneg; lia).
  assert (Hq : 0 < Z.shiftr z (Z.log2 z - 52)).
  { rewrite Z.shiftr_div_pow2 by exact Hsh.
    apply Z.div_str_pos. split; [exact Hpow |].
    apply Z.le_trans with (2 ^ Z.log2 z).
    - apply Z.pow_le_mono_r; lia.
    - apply Z.log2_spec. exact Hz. }
  match goal with |- context [if ?c then _ else _] => destruct c end;
    apply Z.mul_pos_pos; lia.
Qed.

Lemma sub_safe b m :
  0 <= b -> b < m -> m <= JsNumber.maxSafeInteger ->
  JsNumber.sub m b = JsNumber.Finite (m - b).
Proof.
  intros H0 Hlt Hsafe. unfold JsNumber.sub, JsNumber.ofExact. cbv zeta.
  rewrite nearest_safe by lia.
  pose proof maxValue_large as Hmax.
  assert (Hs : JsNumber.maxSafeInteger < 2 ^ 64)
    by (unfold JsNumber.maxSafeInteger; lia).
  destruct (Z.ltb_spec JsNumber.maxValue (m - b)); [lia |].
  destruct (Z.ltb_spec (m - b) (- JsNumber.maxValue)); [lia |].
  reflexivity.
Qed.

Lemma sub_positive b m z :
  b < m -> JsNumber.sub m b = JsNumber.Finite z -> 0 < z.
Proof.
  intros Hlt. unfold JsNumber.sub, JsNumber.ofExact. cbv zeta.
  destruct (JsNumber.maxValue <? JsNumber.nearest (m - b)); [discriminate |].
  destruct (JsNumber.nearest (m - b) <? - JsNumber.maxValue); [discriminate |].
  intros H. injection H as <-. apply nearest_pos. lia.
Qed.

Lemma transfer_inversion from to x ix :
  SystemProgram_transfer from to x = Ok ix ->
  exists z,
    x = JsNumber.Finite z /\ 0 <= z < 2 ^ 64 /\ ix = SystemTransfer from to z.
Proof.
  unfold SystemProgram_transfer. destruct x as [z| |]; try discriminate.
  destruct (Z.leb_spec 0 z) as [Hlo|Hlo];
    destruct (Z.ltb_spec z (2 ^ 64)) as [Hhi|Hhi];
    cbn [andb]; try discriminate.
  intros Hok. injection Hok as <-. exists z. repeat split; assumption.
Qed.

(** In the safe range the transfer instruction exists and moves the exact
    shortfall. *)
Lemma transfer_of_shortfall from to b m :
  0 <= b -> b < m -> m <= JsNumber.maxSafeInteger ->
  SystemProgram_transfer from to (JsNumber.sub m b)
  = Ok (SystemTransfer from to (m - b)).
Proof.
  intros H0 Hlt Hsafe. rewrite (sub_safe b m H0 Hlt Hsafe).
  unfold SystemProgram_transfer.
  assert (Hs : JsNumber.maxSafeInteger < 2 ^ 64)
    by (unfold JsNumber.maxSafeInteger; lia).
  destruct (Z.leb_spec 0 (m - b)); [| lia].
  destruct (Z.ltb_spec (m - b) (2 ^ 64)); [reflexivity | lia].
Qed.

End Numbers.

Section EnsureEscrowFunded.

Context {W : Type} (env : Env W).
Variables (conn : Connection) (escrow : PublicKey) (keypair : Keypair).
Variables (sbProgram : Program) (opts : TxOpts).

Lemma submitted_app l1 l2 :
  submitted (l1 ++ l2) = (submitted l1 ++ submitted l2)%list.
Proof. apply flat_map_app. Qed.

Lemma builds_app l1 l2 : builds (l1 ++ l2) = (builds l1 ++ builds l2)%list.
Proof. apply flat_map_app. Qed.

(** The run on an escrow that already holds the minimum. *)
Lemma ensureEscrowFunded_funded w b w1 m w2 :
  getBalance env conn escrow w = (Ok b, w1) ->
  getMinimumBalanceForRentExemption env conn 0 w1 = (Ok m, w2) ->
  m <= b ->
  ensureEscrowFunded env conn escrow keypair sbProgram opts w
  = mkRun (Returned tt) w2
      [EvGetBalance conn escrow (Ok b);
       EvGetMinimumBalance conn 0 (Ok m);
       EvLog ["  Escrow account funded already"]].
Proof.
  intros Hb Hm Hle. unfold ensureEscrowFunded.
  await_with Hb. await_with Hm. cbv zeta.
  destruct (Z.ltb_spec b m) as [Hlt|_]; [lia |].
  reflexivity.
Qed.

Lemma ensureEscrowFunded_builds w :
  Forall budgeted
    (builds (trace (ensureEscrowFunded env conn escrow keypair sbProgram opts w))).
Proof.
  unfold ensureEscrowFunded. do 2 (await_step; [| constructor]).
  cbv zeta.
  match goal with |- context [if ?c then _ else _] => destruct c end.
  - run_all; repeat constructor.
  - constructor.
Qed.

Lemma ensureEscrowFunded_confirmLevels w :
  Forall (eq confirmed)
    (confirmLevels
       (trace (ensureEscrowFunded env conn escrow keypair sbProgram opts w))).
Proof.
  unfold ensureEscrowFunded. do 2 (await_step; [| constructor]).
  cbv zeta.
  match goal with |- context [if ?c then _ else _] => destruct c end.
  - run_all; repeat constructor.
  - constructor.
Qed.

(** C4 (amended).  On an escrow whose balance [b] is below the
    rent-exemption minimum [m] of an account without data, both amounts
    being safe integers (at most 2^53 - 1, so that the subtraction of
    JavaScript numbers is exact), the function builds one request, whose
    only instruction transfers exactly [m - b] lamports from the funding
    keypair to the escrow; from there on its calls are those of the
    transaction protocol of handleTransaction on that instruction; once the
    build, the dry run and the submission have answered, exactly one
    transaction, the built transfer, has been submitted and taken; and on a
    ledger that executes the transfer the escrow ends at exactly [m]. *)
Theorem ensureEscrowFunded_transfers_shortfall :
  forall w b w1 m w2,
    getBalance env conn escrow w = (Ok b, w1) ->
    getMinimumBalanceForRentExemption env conn 0 w1 = (Ok m, w2) ->
    0 <= b -> b < m -> m <= JsNumber.maxSafeInteger ->
    let r := ensureEscrowFunded env conn escrow keypair sbProgram opts w in
    let transferIx := SystemTransfer (publicKey keypair) escrow (m - b) in
    let req := requestOf sbProgram [transferIx] keypair [keypair] in
    let h :=
      handleTransaction env sbProgram conn [transferIx] keypair [keypair]
        opts w2 in
    builds (trace r) = [req] /\
    networkEvents (trace r) =
      EvGetBalance conn escrow (Ok b)
        :: EvGetMinimumBalance conn 0 (Ok m)
        :: networkEvents (trace h) /\
    (forall tx w3 sim w4 sig w5,
        asV0Tx env req w2 = (Ok tx, w3) ->
        simulateTransaction env conn tx opts w3 = (Ok sim, w4) ->
        sendTransaction env conn tx opts w4 = (Ok sig, w5) ->
        submitted (trace r) = [tx] /\ delivered (trace r) = [(tx, sig)]) /\
    (forall ledger : Devnet.Cluster,
        publicKey keypair <> escrow ->
        0 <= Devnet.lamportsOf ledger escrow ->
        Devnet.lamportsOf ledger escrow < Devnet.rentExemptMinimum ledger ->
        Devnet.rentExemptMinimum ledger <= JsNumber.maxSafeInteger ->
        Devnet.lamportsOf
          (world (ensureEscrowFunded Devnet.env conn escrow keypair sbProgram
                    opts ledger)) escrow
        = Devnet.rentExemptMinimum ledger).
Proof.
  intros w b w1 m w2 Hb Hm H0 Hlt Hsafe r transferIx req h.
  subst r h req transferIx. unfold requestOf.
  assert (Hif : (b <? m) = true) by (apply Z.ltb_lt; exact Hlt).
  pose proof (transfer_of_shortfall (publicKey keypair) escrow b m
                H0 Hlt Hsafe) as Htransfer.
  split; [| split; [| split]].
  - unfold ensureEscrowFunded. await_with Hb. await_with Hm.
    cbv zeta. rewrite Hif. run_all; reflexivity.
  - unfold ensureEscrowFunded, handleTransaction.
    await_with Hb. await_with Hm. cbv zeta. rewrite Hif.
    run_all; reflexivity.
  - intros tx w3 sim w4 sig w5 Hx Hs Hd.
    unfold ensureEscrowFunded. await_with Hb. await_with Hm.
    cbv zeta. rewrite Hif. run_all; split; reflexivity.
  - intros ledger Hne L0 Llt Lsafe.
    pose proof (transfer_of_shortfall (publicKey keypair) escrow _ _
                  L0 Llt Lsafe) as Hledger.
    apply Z.ltb_lt in Llt.
    unfold ensureEscrowFunded, bind, await, attempt, console_log, emit.
    cbn -[JsNumber.sub JsNumber.toString SystemProgram_transfer Z.ltb].
    rewrite Llt.
    cbn -[JsNumber.sub JsNumber.toString SystemProgram_transfer Z.ltb].
    rewrite Hledger.
    cbn -[JsNumber.sub JsNumber.toString Z.ltb].
    rewrite String.eqb_refl.
    destruct (String.eqb_spec escrow (publicKey keypair)) as [Heq|_];
      [symmetry in Heq; contradiction | lia].
Qed.

(** C5.  On an escrow whose balance is at or above the minimum the call
    does nothing but its two reads and a log line: it returns, builds and
    submits nothing, and leaves the world as the reads left it.  Hence a
    call that follows a call that returned, and that reads a funded
    balance, adds no build and no submission to what the first call did. *)
Theorem ensureEscrowFunded_idempotent :
  forall w,
    let fund := ensureEscrowFunded env conn escrow keypair sbProgram opts in
    (forall b w1 m w2,
        getBalance env conn escrow w = (Ok b, w1) ->
        getMinimumBalanceForRentExemption env conn 0 w1 = (Ok m, w2) ->
        m <= b ->
        outcome (fund w) = Returned tt /\
        world (fund w) = w2 /\
        trace (fund w) =
          [EvGetBalance conn escrow (Ok b);
           EvGetMinimumBalance conn 0 (Ok m);
           EvLog ["  Escrow account funded already"]] /\
        builds (trace (fund w)) = [] /\
        submitted (trace (fund w)) = []) /\
    (forall b w1 m w2,
        outcome (fund w) = Returned tt ->
        getBalance env conn escrow (world (fund w)) = (Ok b, w1) ->
        getMinimumBalanceForRentExemption env conn 0 w1 = (Ok m, w2) ->
        m <= b ->
        let twice := bind fund (fun _ => fund) w in
        outcome twice = Returned tt /\
        builds (trace twice) = builds (trace (fund w)) /\
        submitted (trace twice) = submitted (trace (fund w))).
Proof.
  intros w fund. subst fund. split.
  - intros b w1 m w2 Hb Hm Hle.
    rewrite (ensureEscrowFunded_funded w b w1 m w2 Hb Hm Hle).
    repeat split.
  - intros b w1 m w2 Ho Hb Hm Hle twice. subst twice.
    pose proof (ensureEscrowFunded_funded _ b w1 m w2 Hb Hm Hle) as Hsecond.
    rewrite trace_bind. unfold bind at 1. rewrite Ho, Hsecond.
    cbn [outcome trace]. rewrite builds_app, submitted_app.
    cbn. rewrite !app_nil_r. repeat split.
Qed.

End EnsureEscrowFunded.

(** ** initializeGame, and what holds of every transaction *)

Section EveryTransaction.

Context {W : Type} (env : Env W).

(** The run of initializeGame: the builder call, then handleTransaction
    on the instruction it answered, with the signature dropped. *)
Lemma initializeGame_run myProgram playerStateAccount escrow keypair
  sbProgram conn w :
  let accounts :=
    {| playerState := playerStateAccount;
       escrowAccount := escrow;
       user := publicKey keypair;
       systemProgram := SystemProgram_programId;
       randomnessAccountData := None |} in
  initializeGame env myProgram playerStateAccount escrow keypair sbProgram
    conn w
  = match instruction env myProgram Initialize accounts w with
    | (Err e, w1) =>
        mkRun (Thrown e) w1
          [EvInstruction myProgram Initialize accounts (Err e)]
    | (Ok ix, w1) =>
        let h :=
          handleTransaction env sbProgram conn [ix] keypair [keypair]
            initializeOptions w1 in
        mkRun (forget (outcome h)) (world h)
          (EvInstruction myProgram Initialize accounts (Ok ix) :: trace h)
    end.
Proof.
  cbv zeta. unfold initializeGame, buildInstruction.
  destruct (instruction env myProgram Initialize _ w) as [[ix|e] w1] eqn:Hi.
  - await_with Hi. cbv zeta. fold initializeOptions.
    unfold after, bind.
    destruct (handleTransaction env sbProgram conn [ix] keypair [keypair]
                initializeOptions w1) as [[sig|e|c] w2 t2];
      cbn [outcome world trace ret forget]; rewrite ?app_nil_r; reflexivity.
  - await_with Hi. reflexivity.
Qed.

(** C7 (amended).  Confirmation always asks for the fixed level
    "confirmed", the constant COMMITMENT, in handleTransaction and in
    ensureEscrowFunded, whatever commitment the caller's options carry.
    initializeGame passes commitment "processed", with skipPreflight true
    and maxRetries 0, in its options; these reach the simulate and send
    calls only, and its confirmation too asks for "confirmed". *)
Theorem confirmation_level_is_fixed :
  forall myProgram playerStateAccount escrow keypair sbProgram conn ix sg
         opts w,
    COMMITMENT = confirmed /\
    Forall (eq COMMITMENT)
      (confirmLevels
         (trace (handleTransaction env sbProgram conn ix keypair sg opts w))) /\
    Forall (eq COMMITMENT)
      (confirmLevels
         (trace (ensureEscrowFunded env conn escrow keypair sbProgram opts w))) /\
    let r :=
      initializeGame env myProgram playerStateAccount escrow keypair
        sbProgram conn w in
    commitment initializeOptions = Some processed /\
    Forall (eq initializeOptions) (optionsUsed (trace r)) /\
    Forall (eq COMMITMENT) (confirmLevels (trace r)) /\
    (outcome r = Returned tt ->
     optionsUsed (trace r) = [initializeOptions; initializeOptions] /\
     confirmLevels (trace r) = [COMMITMENT]).
Proof.
  intros. split; [reflexivity |].
  split; [apply handleTransaction_confirmLevels |].
  split; [apply ensureEscrowFunded_confirmLevels |].
  cbv zeta. split; [reflexivity |].
  pose proof (initializeGame_run myProgram playerStateAccount escrow keypair
                sbProgram conn w) as Hrun.
  cbv zeta in Hrun. rewrite Hrun. clear Hrun.
  destruct (instruction env myProgram Initialize _ w) as [[ix0|e] w1].
  - cbn [outcome trace optionsUsed confirmLevels flat_map app].
    fold (optionsUsed
            (trace (handleTransaction env sbProgram conn [ix0] keypair
                      [keypair] initializeOptions w1))).
    fold (confirmLevels
            (trace (handleTransaction env sbProgram conn [ix0] keypair
                      [keypair] initializeOptions w1))).
    split; [apply handleTransaction_optionsUsed |].
    split; [apply handleTransaction_confirmLevels |].
    unfold handleTransaction. run_all; intros Hr; try discriminate Hr.
    split; reflexivity.
  - cbn [outcome trace optionsUsed confirmLevels flat_map].
    split; [constructor |]. split; [constructor |].
    intros Hr. discriminate Hr.
Qed.

(** C9.  Every request the client hands to the transaction builder, in
    handleTransaction, in ensureEscrowFunded and so in initializeGame too,
    carries the compute-unit price 75000 and the compute-unit-limit
    multiple 1.3; handleTransaction makes exactly one such request in every
    run. *)
Theorem every_build_is_budgeted :
  forall myProgram playerStateAccount escrow keypair sbProgram conn ix sg
         opts w,
    (exists req,
        builds
          (trace (handleTransaction env sbProgram conn ix keypair sg opts w))
        = [req]
        /\ computeUnitPrice req = 75000
        /\ computeUnitLimitMultiple req = 13 # 10) /\
    Forall budgeted
      (builds
         (trace (ensureEscrowFunded env conn escrow keypair sbProgram opts w))) /\
    Forall budgeted
      (builds
         (trace (initializeGame env myProgram playerStateAccount escrow
                   keypair sbProgram conn w))).
Proof.
  intros. split; [| split].
  - exists (requestOf sbProgram ix keypair sg).
    split; [apply handleTransaction_builds | split; reflexivity].
  - apply ensureEscrowFunded_builds.
  - pose proof (initializeGame_run myProgram playerStateAccount escrow
                  keypair sbProgram conn w) as Hrun.
    cbv zeta in Hrun. rewrite Hrun. clear Hrun.
    destruct (instruction env myProgram Initialize _ w) as [[ix0|e] w1].
    + cbn [trace builds flat_map app].
      fold (builds
              (trace (handleTransaction env sbProgram conn [ix0] keypair
                        [keypair] initializeOptions w1))).
      rewrite handleTransaction_builds. repeat constructor.
    + constructor.
Qed.

End EveryTransaction.

(** ** Runs on the reference environment *)

Module Runs.

Import Devnet.

(** A dry run that reports a program error is followed by the submission
    all the same, and the run returns the signature: the failure is neither
    reported nor does it stop the operation. *)
Lemma failed_simulation_is_submitted :
  let r :=
    handleTransaction env sbProgram rpc [flipIx] player [player] opts
      (rejecting programError genesis) in
  simulationVerdicts (trace r) = [Some programError] /\
  submitted (trace r) <> [] /\
  outcome r = Returned "sig0" /\
  ~ (exists e, outcome r = Thrown e).
Proof.
  cbv zeta. split; [reflexivity |]. split; [discriminate |].
  split; [reflexivity |]. intros [e He]. discriminate He.
Qed.

Lemma handleTransaction_ignores_simulation_verdict_witness :
  let w := rejecting programError genesis in
  let req := requestOf sbProgram [flipIx] player [player] in
  let r := handleTransaction env sbProgram rpc [flipIx] player [player] opts w in
  asV0Tx env req w = (Ok (compile req), w) /\
  simulateTransaction env rpc (compile req) opts w
  = (Ok {| simErr := Some programError; simLogs := [] |}, w) /\
  submitted (trace r) = [compile req] /\
  exists rest,
    trace r =
    EvBuild req (Ok (compile req))
      :: EvSimulate rpc (compile req) opts
           (Ok {| simErr := Some programError; simLogs := [] |})
      :: EvSend rpc (compile req) opts
           (fst (sendTransaction env rpc (compile req) opts w))
      :: rest.
Proof.
  cbv zeta. split; [reflexivity |]. split; [reflexivity |].
  exact (handleTransaction_ignores_simulation_verdict env sbProgram rpc
           [flipIx] player [player] opts
           (rejecting programError genesis)
           (compile (requestOf sbProgram [flipIx] player [player]))
           (rejecting programError genesis)
           (Ok {| simErr := Some programError; simLogs := [] |})
           (rejecting programError genesis)
           eq_refl eq_refl).
Defined.

(** C2.  The failing input: the command-line argument "Heads " is "heads"
    once trimmed and lower-cased, which is what the claim accepts on every
    input path; the code validates the argument as it was given and ends
    the process with exit code 1 instead of returning true. *)
Lemma capitalised_argument_is_rejected :
  let w := invokedWith "Heads " in
  nth_error (argv env w) 2 = Some "Heads " /\
  JsString.toLowerCase (JsString.trim "Heads ") = "heads" /\
  outcome (getUserGuessFromCommandLine env w) = Exited 1 /\
  outcome (getUserGuessFromCommandLine env w) <> Returned true.
Proof.
  cbv zeta. repeat split; try reflexivity. discriminate.
Qed.

Lemma guess_normalised_at_prompt_only_witness :
  (JsString.falsy (nth_error (argv env (answering "Heads  ")) 2) = true /\
   outcome (getUserGuessFromCommandLine env (answering "Heads  "))
   = Returned true) /\
  (JsString.falsy (nth_error (argv env (answering " TAILS")) 2) = true /\
   outcome (getUserGuessFromCommandLine env (answering " TAILS"))
   = Returned false) /\
  (outcome (getUserGuessFromCommandLine env (invokedWith "heads"))
   = Returned true <-> "heads" = "heads") /\
  (outcome (getUserGuessFromCommandLine env (invokedWith "Heads "))
   = Returned true <-> "Heads " = "heads").
Proof.
  split; [| split; [| split]].
  - split; [reflexivity |].
    apply (proj1 (proj1 (guess_normalised_at_prompt_only env
                           (answering "Heads  "))
                    "Heads  " (withTyped [] genesis) eq_refl eq_refl)).
    reflexivity.
  - split; [reflexivity |].
    apply (proj2 (proj1 (guess_normalised_at_prompt_only env
                           (answering " TAILS"))
                    " TAILS" (withTyped [] genesis) eq_refl eq_refl)).
    reflexivity.
  - exact (proj1 (proj2 (guess_normalised_at_prompt_only env
                           (invokedWith "heads")) _ _ eq_refl)).
  - exact (proj1 (proj2 (guess_normalised_at_prompt_only env
                           (invokedWith "Heads ")) _ _ eq_refl)).
Defined.

Lemma guess_validation_witness :
  (validatedInput env (invokedWith "heads") = "heads" /\
   outcome (getUserGuessFromCommandLine env (invokedWith "heads"))
   = Returned true) /\
  (validatedInput env (answering "Tails ") = "tails" /\
   outcome (getUserGuessFromCommandLine env (answering "Tails "))
   = Returned false) /\
  (validatedInput env (invokedWith "maybe") = "maybe" /\
   outcome (getUserGuessFromCommandLine env (invokedWith "maybe"))
   = Exited 1 /\
   exists pre,
     trace (getUserGuessFromCommandLine env (invokedWith "maybe"))
     = (pre ++ [EvError [invalidGuessMessage]; EvExit 1])%list).
Proof.
  split; [| split].
  - split; [reflexivity |].
    apply (proj1 (guess_validation env (invokedWith "heads"))).
    reflexivity.
  - split; [reflexivity |].
    apply (proj1 (proj2 (guess_validation env (answering "Tails ")))).
    reflexivity.
  - split; [reflexivity |].
    apply (proj1 (proj2 (proj2 (guess_validation env (invokedWith "maybe")))));
      apply String.eqb_neq; reflexivity.
Defined.

Lemma empty_argument_falls_back_to_prompt_witness :
  let w := withArgs ["node"; "index.ts"; EmptyString] (answering " Tails") in
  nth_error (argv env w) 2 = Some EmptyString /\
  (prompts (trace (getUserGuessFromCommandLine env w)) = [guessPrompt] /\
   validatedInput env w = "tails" /\
   outcome (getUserGuessFromCommandLine env w) = Returned false) /\
  (prompts (trace (getUserGuessFromCommandLine env (invokedWith "Heads"))) = [] /\
   validatedInput env (invokedWith "Heads") = "Heads" /\
   outcome (getUserGuessFromCommandLine env (invokedWith "Heads")) = Exited 1).
Proof.
  cbv zeta. split; [reflexivity |]. split.
  - exact (proj1 (empty_argument_falls_back_to_prompt env
                    (withArgs ["node"; "index.ts"; EmptyString]
                       (answering " Tails")))
             " Tails"
             (withArgs ["node"; "index.ts"; EmptyString] (withTyped [] genesis))
             eq_refl eq_refl).
  - exact (proj2 (empty_argument_falls_back_to_prompt env
                    (invokedWith "Heads")) _ _ eq_refl).
Defined.

Lemma handleTransaction_protocol_witness :
  let req := requestOf sbProgram [flipIx] player [player] in
  let r :=
    handleTransaction env sbProgram rpc [flipIx] player [player] opts genesis in
  outcome r = Returned "sig0" /\
  steps (trace r) = protocol /\
  exists tx sim res,
    trace r =
    [EvBuild req (Ok tx);
     EvSimulate rpc tx opts (Ok sim);
     EvSend rpc tx opts (Ok "sig0");
     EvConfirm rpc "sig0" COMMITMENT (Ok res);
     EvLog ["  Transaction Signature"; "sig0"]].
Proof.
  cbv zeta.
  pose proof (handleTransaction_protocol env sbProgram rpc [flipIx] player
                [player] opts genesis) as (_ & Hreturns & Hall).
  assert (Hr : outcome
                 (handleTransaction env sbProgram rpc [flipIx] player
                    [player] opts genesis) = Returned "sig0").
  { apply (Hreturns
             (compile (requestOf sbProgram [flipIx] player [player]))
             genesis
             {| simErr := None; simLogs := [] |}
             genesis
             "sig0"
             (execute (compile (requestOf sbProgram [flipIx] player [player]))
                genesis)
             {| sigErr := None |}
             (execute (compile (requestOf sbProgram [flipIx] player [player]))
                genesis));
      reflexivity. }
  split; [exact Hr |]. exact (Hall "sig0" Hr).
Defined.

Lemma setupQueue_load_witness :
  (outcome (setupQueue env myProgram (withoutQueue genesis)) = Exited 1 /\
   trace (setupQueue env myProgram (withoutQueue genesis)) =
   [EvGetDefaultQueue (rpcEndpoint rpc) (Ok {| pubkey := "queue" |});
    EvLog ["Queue account"; "queue"];
    EvLoadData {| pubkey := "queue" |} (Err "Account not found");
    EvError ["Queue not found, ensure you are using devnet in your env"];
    EvExit 1]) /\
  (outcome (setupQueue env myProgram genesis) = Returned "queue" /\
   trace (setupQueue env myProgram genesis) =
   [EvGetDefaultQueue (rpcEndpoint rpc) (Ok {| pubkey := "queue" |});
    EvLog ["Queue account"; "queue"];
    EvLoadData {| pubkey := "queue" |} (Ok tt)]).
Proof.
  split.
  - exact (setupQueue_load env myProgram (withoutQueue genesis)
             {| pubkey := "queue" |} (withoutQueue genesis)
             (Err "Account not found") (withoutQueue genesis)
             eq_refl eq_refl).
  - exact (setupQueue_load env myProgram genesis
             {| pubkey := "queue" |} genesis (Ok tt) genesis
             eq_refl eq_refl).
Defined.

(** The scenario of an empty escrow and a minimum of 890880 lamports: one
    transfer of 890880 lamports is submitted and taken, and the ledger then
    shows the escrow at the minimum. *)
Lemma ensureEscrowFunded_transfers_shortfall_witness :
  let r := ensureEscrowFunded env rpc escrow player sbProgram opts genesis in
  let transferIx := SystemTransfer "player" "escrow" 890880 in
  let req := requestOf sbProgram [transferIx] player [player] in
  getBalance env rpc escrow genesis = (Ok 0, genesis) /\
  getMinimumBalanceForRentExemption env rpc 0 genesis = (Ok 890880, genesis) /\
  builds (trace r) = [req] /\
  submitted (trace r) = [compile req] /\
  delivered (trace r) = [(compile req, "sig0")] /\
  lamportsOf (world r) escrow = 890880.
Proof.
  cbv zeta. split; [reflexivity |]. split; [reflexivity |].
  assert (H0 : 0 <= 0) by lia.
  assert (Hsafe : 890880 <= JsNumber.maxSafeInteger)
    by (unfold JsNumber.maxSafeInteger; lia).
  assert (Hne : publicKey player <> escrow)
    by (apply String.eqb_neq; reflexivity).
  pose proof (ensureEscrowFunded_transfers_shortfall env rpc escrow player
                sbProgram opts genesis 0 genesis 890880 genesis
                eq_refl eq_refl H0 eq_refl Hsafe) as (Hb & _ & Hs & Hl).
  split; [exact Hb |].
  destruct (Hs (compile
                  (requestOf sbProgram
                     [SystemTransfer (publicKey player) escrow (890880 - 0)]
                     player [player]))
               genesis {| simErr := None; simLogs := [] |} genesis
               "sig0"
               (execute
                  (compile
                     (requestOf sbProgram
                        [SystemTransfer (publicKey player) escrow (890880 - 0)]
                        player [player])) genesis)
               eq_refl eq_refl eq_refl) as (Hsub & Hdel).
  split; [exact Hsub |]. split; [exact Hdel |].
  exact (Hl genesis Hne H0 eq_refl Hsafe).
Defined.

(** An escrow holding 1 lamport under a minimum of 2^60: the numbers are
    doubles, the difference 2^60 - 1 is not one, and the client transfers
    2^60 lamports, which leaves the escrow above the minimum. *)
Lemma large_shortfall_is_rounded :
  let w := holding 1 (2 ^ 60) in
  let r := ensureEscrowFunded env rpc escrow player sbProgram opts w in
  getBalance env rpc escrow w = (Ok 1, w) /\
  getMinimumBalanceForRentExemption env rpc 0 w = (Ok (2 ^ 60), w) /\
  1 < 2 ^ 60 /\
  outcome r = Returned tt /\
  map ixs (builds (trace r)) = [[SystemTransfer "player" "escrow" (2 ^ 60)]] /\
  2 ^ 60 <> 2 ^ 60 - 1 /\
  lamportsOf (world r) escrow = 2 ^ 60 + 1 /\
  lamportsOf (world r) escrow <> 2 ^ 60.
Proof.
  cbv zeta. repeat split; try (vm_compute; reflexivity);
    vm_compute; discriminate.
Qed.

(** Funding twice in a row from the empty escrow: the second call reads the
    funded balance and submits nothing more. *)
Lemma ensureEscrowFunded_idempotent_witness :
  let fund := ensureEscrowFunded env rpc escrow player sbProgram opts in
  let funded := world (fund genesis) in
  outcome (fund genesis) = Returned tt /\
  getBalance env rpc escrow funded = (Ok 890880, funded) /\
  (outcome (fund funded) = Returned tt /\
   world (fund funded) = funded /\
   builds (trace (fund funded)) = [] /\
   submitted (trace (fund funded)) = []) /\
  (outcome (bind fund (fun _ => fund) genesis) = Returned tt /\
   submitted (trace (bind fund (fun _ => fund) genesis))
   = submitted (trace (fund genesis)) /\
   length (submitted (trace (bind fund (fun _ => fund) genesis))) = 1%nat).
Proof.
  cbv zeta. split; [reflexivity |]. split; [reflexivity |].
  pose proof (ensureEscrowFunded_idempotent env rpc escrow player sbProgram
                opts
                (world (ensureEscrowFunded env rpc escrow player sbProgram
                          opts genesis))) as (Hone & _).
  pose proof (ensureEscrowFunded_idempotent env rpc escrow player sbProgram
                opts genesis) as (_ & Htwo).
  split.
  - destruct (Hone 890880 _ 890880 _ eq_refl eq_refl (Z.le_refl 890880))
      as (Ho & Hw & _ & Hb & Hs).
    repeat split; assumption.
  - destruct (Htwo 890880 _ 890880 _ eq_refl eq_refl eq_refl
                (Z.le_refl 890880)) as (Ho & _ & Hs).
    split; [exact Ho |]. split; [exact Hs | reflexivity].
Defined.

(** initializeGame asks for commitment "processed" in its options, and its
    confirmation still waits for "confirmed". *)
Lemma initializeGame_confirms_at_confirmed :
  let r :=
    initializeGame env myProgram playerStatePda escrow player sbProgram rpc
      genesis in
  outcome r = Returned tt /\
  map commitment (optionsUsed (trace r)) = [Some processed; Some processed] /\
  confirmLevels (trace r) = [confirmed] /\
  ~ In processed (confirmLevels (trace r)).
Proof.
  cbv zeta. repeat split.
  intros [H | []]. discriminate H.
Qed.

Lemma confirmation_level_is_fixed_witness :
  let r :=
    initializeGame env myProgram playerStatePda escrow player sbProgram rpc
      genesis in
  outcome r = Returned tt /\
  optionsUsed (trace r) = [initializeOptions; initializeOptions] /\
  confirmLevels (trace r) = [COMMITMENT].
Proof.
  cbv zeta. split; [reflexivity |].
  apply (confirmation_level_is_fixed env myProgram playerStatePda escrow
           player sbProgram rpc [flipIx] [player] opts genesis).
  reflexivity.
Defined.

End Runs.

(** * Further properties *)

(** ** handleTransaction: failures and what it never does *)

Section HandleTransactionFailures.

Context {W : Type} (env : Env W).
Variables (sbProgram : Program) (conn : Connection).
Variables (ix : list TransactionInstruction) (keypair : Keypair).
Variables (sg : list Keypair) (opts : TxOpts).

(** X1.  A rejection of the build, of the dry run or of the submission
    escapes handleTransaction as that very exception; the run stops at the
    rejected call, in the state that call left, and logs nothing. *)
Theorem handleTransaction_rejection_escapes :
  forall w,
    let r := handleTransaction env sbProgram conn ix keypair sg opts w in
    let req := requestOf sbProgram ix keypair sg in
    (forall e w1,
        asV0Tx env req w = (Err e, w1) ->
        outcome r = Thrown e /\ world r = w1 /\
        trace r = [EvBuild req (Err e)]) /\
    (forall tx w1 e w2,
        asV0Tx env req w = (Ok tx, w1) ->
        simulateTransaction env conn tx opts w1 = (Err e, w2) ->
        outcome r = Thrown e /\ world r = w2 /\
        trace r = [EvBuild req (Ok tx); EvSimulate conn tx opts (Err e)]) /\
    (forall tx w1 sim w2 e w3,
        asV0Tx env req w = (Ok tx, w1) ->
        simulateTransaction env conn tx opts w1 = (Ok sim, w2) ->
        sendTransaction env conn tx opts w2 = (Err e, w3) ->
        outcome r = Thrown e /\ world r = w3 /\
        trace r = [EvBuild req (Ok tx);
                   EvSimulate conn tx opts (Ok sim);
                   EvSend conn tx opts (Err e)]).
Proof.
  intros w r req. subst r req. unfold requestOf.
  split; [| split].
  - intros e w1 Hb. unfold handleTransaction. run_all. repeat split.
  - intros tx w1 e w2 Hb Hs. unfold handleTransaction. run_all.
    repeat split.
  - intros tx w1 sim w2 e w3 Hb Hs Hd. unfold handleTransaction. run_all.
    repeat split.
Qed.


(** X3.  handleTransaction never ends the process and never asks a
    question; it writes to the console, on either stream, exactly when it
    returns, and then one line on the output stream holding the signature
    it returns. *)
Theorem handleTransaction_never_exits :
  forall w,
    let r := handleTransaction env sbProgram conn ix keypair sg opts w in
    (forall code, outcome r <> Exited code) /\
    prompts (trace r) = [] /\
    console (trace r) =
      match outcome r with
      | Returned sig => [EvLog ["  Transaction Signature"; sig]]
      | _ => []
      end.
Proof.
  intros w r. subst r. unfold handleTransaction.
  run_all; (split; [intros code H; discriminate H | split; reflexivity]).
Qed.

(** X4.  The transaction is built on the connection of the oracle
    program's provider, whereas every dry run, submission and confirmation
    goes to the connection given as argument; the two need not be the
    same. *)
Theorem handleTransaction_connections :
  forall w,
    let r := handleTransaction env sbProgram conn ix keypair sg opts w in
    map reqConnection (builds (trace r)) = [connection (provider sbProgram)] /\
    Forall (eq conn) (rpcConnections (trace r)).
Proof.
  intros w r. subst r. split.
  - rewrite handleTransaction_builds. reflexivity.
  - unfold handleTransaction. run_all; repeat constructor.
Qed.

End HandleTransactionFailures.

(** ** ensureEscrowFunded: failures and invariants *)

Section EnsureEscrowFundedMore.

Context {W : Type} (env : Env W).
Variables (conn : Connection) (escrow : PublicKey) (keypair : Keypair).
Variables (sbProgram : Program) (opts : TxOpts).

Ltac split_branch :=
  match goal with |- context [if ?c then _ else _] => destruct c eqn:? end.

(** X5.  A rejected balance read, or a rejected read of the rent-exemption
    minimum, escapes as that exception before anything is logged, built or
    submitted; after a rejected balance read the minimum is not read. *)
Theorem ensureEscrowFunded_read_rejected :
  forall w,
    let r := ensureEscrowFunded env conn escrow keypair sbProgram opts w in
    (forall e w1,
        getBalance env conn escrow w = (Err e, w1) ->
        outcome r = Thrown e /\ world r = w1 /\
        trace r = [EvGetBalance conn escrow (Err e)]) /\
    (forall b w1 e w2,
        getBalance env conn escrow w = (Ok b, w1) ->
        getMinimumBalanceForRentExemption env conn 0 w1 = (Err e, w2) ->
        outcome r = Thrown e /\ world r = w2 /\
        trace r = [EvGetBalance conn escrow (Ok b);
                   EvGetMinimumBalance conn 0 (Err e)]).
Proof.
  intros w r. subst r. split.
  - intros e w1 Hb. unfold ensureEscrowFunded. await_with Hb.
    repeat split.
  - intros b w1 e w2 Hb Hm. unfold ensureEscrowFunded.
    await_with Hb. await_with Hm. repeat split.
Qed.

(** X6.  Whatever the environment answers, a run builds at most one
    request, and a request it builds holds a single System transfer of a
    strictly positive amount from the funding keypair to the escrow, paid
    and signed by that keypair alone. *)
Theorem ensureEscrowFunded_builds_only_positive_transfers :
  forall w,
    let r := ensureEscrowFunded env conn escrow keypair sbProgram opts w in
    (length (builds (trace r)) <= 1)%nat /\
    Forall (fundingRequest keypair escrow) (builds (trace r)).
Proof.
  intros w r. subst r. unfold ensureEscrowFunded.
  await_step; [| split; [cbn; lia | constructor]].
  await_step; [| split; [cbn; lia | constructor]].
  cbv zeta. split_branch.
  - match goal with H : (_ <? _) = true |- _ => apply Z.ltb_lt in H end.
    unfold console_log. rewrite bind_emit.
    match goal with
    | |- context [attempt ?t] => destruct t as [ix|e] eqn:Hix
    end.
    + destruct (transfer_inversion _ _ _ _ Hix) as (z & Hz & Hrange & ->).
      assert (Hpos : 0 < z) by (eapply sub_positive; eassumption).
      rewrite bind_attempt.
      run_all;
        (split; [cbn; lia |
                 repeat constructor; exists z; repeat split; exact Hpos]).
    + rewrite bind_attempt. split; [cbn; lia | constructor].
  - split; [cbn; lia | constructor].
Qed.

(** X7.  On an under-funded escrow for which the transfer instruction can
    be made, once every call has answered the function returns, whatever
    the dry run and the confirmation report about the transfer: neither
    verdict is looked at.  The run is the two reads, the funding line with
    the amount as the number prints, the four protocol calls on the built
    transfer, and the signature line. *)
Theorem ensureEscrowFunded_verdicts_ignored :
  forall w b w1 m w2 transferIx tx w3 sim w4 sig w5 res w6,
    let r := ensureEscrowFunded env conn escrow keypair sbProgram opts w in
    let amountToFund := JsNumber.sub m b in
    let req := requestOf sbProgram [transferIx] keypair [keypair] in
    getBalance env conn escrow w = (Ok b, w1) ->
    getMinimumBalanceForRentExemption env conn 0 w1 = (Ok m, w2) ->
    b < m ->
    SystemProgram_transfer (publicKey keypair) escrow amountToFund
    = Ok transferIx ->
    asV0Tx env req w2 = (Ok tx, w3) ->
    simulateTransaction env conn tx opts w3 = (Ok sim, w4) ->
    sendTransaction env conn tx opts w4 = (Ok sig, w5) ->
    confirmTransaction env conn sig COMMITMENT w5 = (Ok res, w6) ->
    outcome r = Returned tt /\
    world r = w6 /\
    trace r =
      [EvGetBalance conn escrow (Ok b);
       EvGetMinimumBalance conn 0 (Ok m);
       EvLog [fundingLine amountToFund];
       EvBuild req (Ok tx);
       EvSimulate conn tx opts (Ok sim);
       EvSend conn tx opts (Ok sig);
       EvConfirm conn sig COMMITMENT (Ok res);
       EvLog ["  Transaction Signature "; sig]].
Proof.
  intros w b w1 m w2 transferIx tx w3 sim w4 sig w5 res w6 r amountToFund req
         Hb Hm Hlt Hix Hx Hs Hd Hc.
  subst r req amountToFund. unfold requestOf, fundingLine in *.
  apply Z.ltb_lt in Hlt.
  unfold ensureEscrowFunded. await_with Hb. await_with Hm.
  cbv zeta. rewrite Hlt. run_all. repeat split.
Qed.

(** X8.  Every run reads the escrow balance exactly once, as its first
    call, and never again, not even after a transfer; the rent-exemption
    minimum is read at most once, and only for data length 0. *)
Theorem ensureEscrowFunded_reads_balance_once :
  forall w,
    let r := ensureEscrowFunded env conn escrow keypair sbProgram opts w in
    balanceReads (trace r) = [(conn, escrow)] /\
    (exists answer rest,
        trace r = EvGetBalance conn escrow answer :: rest) /\
    (length (minimumReads (trace r)) <= 1)%nat /\
    Forall (eq (conn, 0)) (minimumReads (trace r)).
Proof.
  intros w r. subst r. unfold ensureEscrowFunded.
  await_step.
  - await_step.
    + cbv zeta. split_branch; run_all;
        (split; [reflexivity |
                 split; [do 2 eexists; reflexivity |
                         split; [cbn; lia | repeat constructor]]]).
    + split; [reflexivity |].
      split; [do 2 eexists; reflexivity |].
      split; [cbn; lia | repeat constructor].
  - split; [reflexivity |].
    split; [do 2 eexists; reflexivity |].
    split; [cbn; lia | constructor].
Qed.

(** X9.  On an under-funded escrow the funding line is logged and the
    transfer instruction is made from the difference of the two numbers.
    When it can be made, the inlined protocol ends exactly as
    handleTransaction would on that instruction, from the state the reads
    left: it returns when handleTransaction returns, throws the same
    exception when it throws, and leaves the same state.  When it cannot
    (the amount is not an unsigned 64-bit integer), the exception escapes
    before anything is built. *)
Theorem ensureEscrowFunded_ends_as_handleTransaction :
  forall w b w1 m w2,
    let r := ensureEscrowFunded env conn escrow keypair sbProgram opts w in
    getBalance env conn escrow w = (Ok b, w1) ->
    getMinimumBalanceForRentExemption env conn 0 w1 = (Ok m, w2) ->
    b < m ->
    match
      SystemProgram_transfer (publicKey keypair) escrow (JsNumber.sub m b)
    with
    | Ok transferIx =>
        let h :=
          handleTransaction env sbProgram conn [transferIx] keypair [keypair]
            opts w2 in
        outcome r = forget (outcome h) /\
        world r = world h /\
        builds (trace r) = builds (trace h) /\
        submitted (trace r) = submitted (trace h) /\
        confirmLevels (trace r) = confirmLevels (trace h)
    | Err e =>
        outcome r = Thrown e /\
        world r = w2 /\
        trace r =
          [EvGetBalance conn escrow (Ok b);
           EvGetMinimumBalance conn 0 (Ok m);
           EvLog [fundingLine (JsNumber.sub m b)]]
    end.
Proof.
  intros w b w1 m w2 r Hb Hm Hlt. subst r.
  apply Z.ltb_lt in Hlt.
  destruct (SystemProgram_transfer (publicKey keypair) escrow
              (JsNumber.sub m b)) as [transferIx|e] eqn:Hix.
  - cbv zeta. unfold ensureEscrowFunded, handleTransaction.
    await_with Hb. await_with Hm. cbv zeta. rewrite Hlt.
    run_all; repeat split.
  - unfold ensureEscrowFunded, fundingLine.
    await_with Hb. await_with Hm. cbv zeta. rewrite Hlt.
    run_all. repeat split.
Qed.

End EnsureEscrowFundedMore.

(** ** setupQueue: the lookup and the ways a run can end *)

Section SetupQueueMore.

Context {W : Type} (env : Env W).
Variable program : Program.

(** X10.  Only the load is guarded: when the lookup of the default queue
    itself rejects, the exception escapes setupQueue; nothing is logged, no
    load is attempted and the process is not ended. *)
Theorem setupQueue_lookup_rejected :
  forall w e w1,
    let endpoint := rpcEndpoint (connection (provider program)) in
    getDefaultQueue env endpoint w = (Err e, w1) ->
    let r := setupQueue env program w in
    outcome r = Thrown e /\
    world r = w1 /\
    trace r = [EvGetDefaultQueue endpoint (Err e)].
Proof.
  intros w e w1 endpoint Hq r. subst r endpoint.
  unfold setupQueue. await_with Hq. split; [| split]; reflexivity.
Qed.

(** X11.  The ways a run of setupQueue can end.  An exception that escapes
    is the rejection of the lookup; a process exit has code 1 and follows
    one failed load and the diagnostic; a returned key is the key of the
    queue that was looked up and loaded.  No run asks a question or takes a
    step of the transaction protocol. *)
Theorem setupQueue_outcomes :
  forall w,
    let endpoint := rpcEndpoint (connection (provider program)) in
    let r := setupQueue env program w in
    (forall e,
        outcome r = Thrown e ->
        trace r = [EvGetDefaultQueue endpoint (Err e)]) /\
    (forall code,
        outcome r = Exited code ->
        code = 1 /\
        exists q e,
          trace r =
          [EvGetDefaultQueue endpoint (Ok q);
           EvLog ["Queue account"; pubkey q];
           EvLoadData q (Err e);
           EvError
             ["Queue not found, ensure you are using devnet in your env"];
           EvExit 1]) /\
    (forall key,
        outcome r = Returned key ->
        exists q,
          key = pubkey q /\
          trace r =
          [EvGetDefaultQueue endpoint (Ok q);
           EvLog ["Queue account"; pubkey q];
           EvLoadData q (Ok tt)]) /\
    steps (trace r) = [] /\
    prompts (trace r) = [].
Proof.
  intros w endpoint r. subst r endpoint. unfold setupQueue.
  await_step.
  - unfold console_log. rewrite bind_emit, bind_tryCatch_await.
    destruct (loadData env a w0) as [[[]|e] w1].
    + cbn. split; [intros e He; discriminate He |].
      split; [intros c Hc; discriminate Hc |].
      split; [| split; reflexivity].
      intros key Hk. injection Hk as <-. exists a. split; reflexivity.
    + unfold console_error. rewrite bind_assoc, bind_emit. cbn.
      split; [intros e' He; discriminate He |].
      split; [| split; [intros key Hk; discriminate Hk | split; reflexivity]].
      intros c Hc. injection Hc as <-. split; [reflexivity |].
      exists a, e. reflexivity.
  - cbn. split; [| split; [intros c Hc; discriminate Hc |
                          split; [intros key Hk; discriminate Hk |
                                  split; reflexivity]]].
    intros e He. injection He as <-. reflexivity.
Qed.

End SetupQueueMore.

(** ** The normalisation of the prompt's answer *)

Section Normalisation.

Lemma isWhiteSpace_lowerUnit c :
  JsString.isWhiteSpace (JsString.lowerUnit c) = JsString.isWhiteSpace c.
Proof.
  destruct c as [[] [] [] [] [] [] [] []]; reflexivity.
Qed.

Lemma trimStart_blank s :
  allWhiteSpace s = true -> JsString.trimStart s = EmptyString.
Proof.
  induction s as [|c r IH]; simpl; [reflexivity |].
  intros H. apply andb_true_iff in H as [Hc Hr]. rewrite Hc. auto.
Qed.

Lemma trimEnd_blank s :
  allWhiteSpace s = true -> JsString.trimEnd s = EmptyString.
Proof.
  induction s as [|c r IH]; simpl; [reflexivity |].
  intros H. apply andb_true_iff in H as [Hc Hr]. rewrite (IH Hr), Hc.
  reflexivity.
Qed.

Lemma trim_blank s : allWhiteSpace s = true -> JsString.trim s = EmptyString.
Proof.
  intros H. unfold JsString.trim. rewrite (trimStart_blank s H). reflexivity.
Qed.

Lemma trimStart_split s :
  exists pre,
    s = String.append pre (JsString.trimStart s) /\ allWhiteSpace pre = true.
Proof.
  induction s as [|c r (pre & Hs & Hp)]; simpl.
  - exists EmptyString. split; reflexivity.
  - destruct (JsString.isWhiteSpace c) eqn:Hc.
    + exists (String c pre). simpl. rewrite Hc, Hp, <- Hs. split; reflexivity.
    + exists EmptyString. split; reflexivity.
Qed.

Lemma trimEnd_split s :
  exists post,
    s = String.append (JsString.trimEnd s) post /\ allWhiteSpace post = true.
Proof.
  induction s as [|c r (post & Hs & Hp)]; simpl.
  - exists EmptyString. split; reflexivity.
  - destruct (JsString.trimEnd r) as [|c' r'] eqn:Hr.
    + simpl in Hs. subst r.
      destruct (JsString.isWhiteSpace c) eqn:Hc.
      * exists (String c post). simpl. rewrite Hc, Hp. split; reflexivity.
      * exists post. split; [reflexivity | exact Hp].
    + exists post. simpl. rewrite Hs at 1. split; [reflexivity | exact Hp].
Qed.

Lemma trimEnd_pad s post :
  allWhiteSpace post = true ->
  JsString.trimEnd (String.append s post) = JsString.trimEnd s.
Proof.
  intros Hp. induction s as [|c r IH]; simpl.
  - apply trimEnd_blank; exact Hp.
  - rewrite IH. reflexivity.
Qed.

Lemma trim_pad_end s post :
  allWhiteSpace post = true ->
  JsString.trim (String.append s post) = JsString.trim s.
Proof.
  intros Hp. unfold JsString.trim. induction s as [|c r IH]; simpl.
  - rewrite (trimStart_blank post Hp). reflexivity.
  - destruct (JsString.isWhiteSpace c); [exact IH |].
    apply (trimEnd_pad (String c r) post Hp).
Qed.

Lemma trim_pad_start pre s :
  allWhiteSpace pre = true ->
  JsString.trim (String.append pre s) = JsString.trim s.
Proof.
  intros Hp. unfold JsString.trim. f_equal.
  induction pre as [|c r IH]; simpl; [reflexivity |].
  simpl in Hp. apply andb_true_iff in Hp as [Hc Hr]. rewrite Hc. auto.
Qed.

Lemma trimStart_toLowerCase s :
  JsString.trimStart (JsString.toLowerCase s)
  = JsString.toLowerCase (JsString.trimStart s).
Proof.
  induction s as [|c r IH]; simpl; [reflexivity |].
  rewrite isWhiteSpace_lowerUnit.
  destruct (JsString.isWhiteSpace c); [exact IH | reflexivity].
Qed.

Lemma trimEnd_toLowerCase s :
  JsString.trimEnd (JsString.toLowerCase s)
  = JsString.toLowerCase (JsString.trimEnd s).
Proof.
  induction s as [|c r IH]; simpl; [reflexivity |].
  rewrite IH, isWhiteSpace_lowerUnit.
  destruct (JsString.trimEnd r); simpl; [| reflexivity].
  destruct (JsString.isWhiteSpace c); reflexivity.
Qed.

(** Trimming and lower-casing commute. *)
Lemma trim_toLowerCase s :
  JsString.trim (JsString.toLowerCase s)
  = JsString.toLowerCase (JsString.trim s).
Proof.
  unfold JsString.trim.
  rewrite trimStart_toLowerCase, trimEnd_toLowerCase. reflexivity.
Qed.

(** The answers that normalise to a word that trimming leaves alone: that
    word in any letter case, between two runs of white space. *)
Lemma normalised_iff answer target :
  JsString.trim target = target ->
  JsString.toLowerCase (JsString.trim answer) = target <->
  exists pre core post,
    answer = String.append pre (String.append core post) /\
    allWhiteSpace pre = true /\
    allWhiteSpace post = true /\
    JsString.toLowerCase core = target.
Proof.
  intros Ht. split.
  - intros H.
    destruct (trimStart_split answer) as (pre & Hs & Hp).
    destruct (trimEnd_split (JsString.trimStart answer)) as (post & He & Hq).
    exists pre, (JsString.trim answer), post.
    unfold JsString.trim in *. rewrite <- He, <- Hs. auto.
  - intros (pre & core & post & -> & Hp & Hq & Hc).
    rewrite (trim_pad_start pre _ Hp), (trim_pad_end core post Hq).
    rewrite <- trim_toLowerCase, Hc. exact Ht.
Qed.

End Normalisation.

Section PromptAnswers.

Context {W : Type} (env : Env W).

(** X12.  An answer to the prompt that is empty or made of white space only
    is an invalid guess: the question is asked once, not repeated, and the
    process ends with exit code 1 after the complaint. *)
Theorem blank_answer_exits :
  forall w answer w',
    JsString.falsy (nth_error (argv env w) 2) = true ->
    question env guessPrompt w = (answer, w') ->
    allWhiteSpace answer = true ->
    let r := getUserGuessFromCommandLine env w in
    outcome r = Exited 1 /\
    trace r =
      [EvQuestion guessPrompt answer;
       EvError [invalidGuessMessage];
       EvExit 1].
Proof.
  intros w answer w' Hf Hq Hb r. subst r.
  rewrite (guess_run_prompt env w answer w' Hf Hq).
  rewrite (trim_blank answer Hb). split; reflexivity.
Qed.

(** X13.  The answers the prompt accepts.  The result is true exactly for
    an answer made of white space, then the word "heads" in any mix of
    upper and lower case, then white space; it is false exactly for such an
    answer around "tails".  White space inside the word is not removed. *)
Theorem accepted_answers :
  forall w answer w',
    JsString.falsy (nth_error (argv env w) 2) = true ->
    question env guessPrompt w = (answer, w') ->
    let r := getUserGuessFromCommandLine env w in
    (outcome r = Returned true <->
     exists pre core post,
       answer = String.append pre (String.append core post) /\
       allWhiteSpace pre = true /\
       allWhiteSpace post = true /\
       JsString.toLowerCase core = "heads") /\
    (outcome r = Returned false <->
     exists pre core post,
       answer = String.append pre (String.append core post) /\
       allWhiteSpace pre = true /\
       allWhiteSpace post = true /\
       JsString.toLowerCase core = "tails").
Proof.
  intros w answer w' Hf Hq r. subst r.
  rewrite (guess_run_prompt env w answer w' Hf Hq). cbn [outcome].
  split.
  - rewrite verdictOf_true. apply normalised_iff. reflexivity.
  - rewrite verdictOf_false. apply normalised_iff. reflexivity.
Qed.

End PromptAnswers.

(** ** initializeGame and the instruction builders *)

Section GameInstructions.

Context {W : Type} (env : Env W).
Variables (myProgram sbProgram : Program) (conn : Connection).
Variables (playerStateAccount : DerivedAccount) (escrow : PublicKey).
Variables (keypair : Keypair).

(** X14.  initializeGame asks the Anchor builder once, for the Initialize
    instruction of the game program on the accounts it was given.  When the
    builder rejects, that exception escapes and nothing is built or
    submitted.  When it answers, the rest is one run of handleTransaction
    on that single instruction, paid and signed by the keypair alone, with
    the fixed options: same calls, same final state, same exception if any;
    the signature handleTransaction returns is dropped. *)
Theorem initializeGame_is_one_transaction :
  forall w,
    let accounts :=
      {| playerState := playerStateAccount;
         escrowAccount := escrow;
         user := publicKey keypair;
         systemProgram := SystemProgram_programId;
         randomnessAccountData := None |} in
    let r :=
      initializeGame env myProgram playerStateAccount escrow keypair
        sbProgram conn w in
    instructionCalls (trace r) = [(myProgram, Initialize, accounts)] /\
    (forall e w1,
        instruction env myProgram Initialize accounts w = (Err e, w1) ->
        outcome r = Thrown e /\
        world r = w1 /\
        trace r = [EvInstruction myProgram Initialize accounts (Err e)]) /\
    (forall initIx w1,
        instruction env myProgram Initialize accounts w = (Ok initIx, w1) ->
        let h :=
          handleTransaction env sbProgram conn [initIx] keypair [keypair]
            initializeOptions w1 in
        outcome r = forget (outcome h) /\
        world r = world h /\
        trace r
        = EvInstruction myProgram Initialize accounts (Ok initIx) :: trace h /\
        builds (trace r) = [requestOf sbProgram [initIx] keypair [keypair]]).
Proof.
  intros w accounts r. subst r accounts.
  pose proof (initializeGame_run env myProgram playerStateAccount escrow
                keypair sbProgram conn w) as Hrun.
  cbv zeta in Hrun. rewrite Hrun. clear Hrun.
  split; [| split].
  - destruct (instruction env myProgram Initialize _ w) as [[ix0|e] w1];
      [| reflexivity].
    cbn [trace instructionCalls flat_map app]. f_equal.
    unfold handleTransaction. run_all; reflexivity.
  - intros e w1 Hi. rewrite Hi. repeat split.
  - intros initIx w1 Hi. rewrite Hi. cbv zeta. cbn [outcome world trace].
    split; [reflexivity |]. split; [reflexivity |]. split; [reflexivity |].
    cbn [builds flat_map app].
    apply (handleTransaction_builds env sbProgram conn [initIx] keypair
             [keypair] initializeOptions w1).
Qed.

(** X15.  createCoinFlipInstruction and settleFlipInstruction each ask the
    Anchor builder exactly once and hand back its answer unchanged, its
    rejection included.  For the same player state, escrow, randomness
    account and keypair the two calls name the same program and the same
    set of accounts; the coin flip names the randomness account twice, as
    its argument and as an account, and passes the guess as given. *)
Theorem flip_and_settle_share_accounts :
  forall rngKpPublicKey userGuess escrowBump w,
    let flip :=
      createCoinFlipInstruction env myProgram rngKpPublicKey userGuess
        playerStateAccount keypair escrow w in
    let settle :=
      settleFlipInstruction env myProgram escrowBump playerStateAccount
        rngKpPublicKey escrow keypair w in
    let answerOf method accounts :=
      fst (instruction env myProgram method accounts w) in
    let resultOf (answer : Result TransactionInstruction) :=
      match answer with
      | Ok instr => Returned instr
      | Err e => Thrown e
      end in
    exists accounts,
      randomnessAccountData accounts = Some rngKpPublicKey /\
      playerState accounts = playerStateAccount /\
      escrowAccount accounts = escrow /\
      user accounts = publicKey keypair /\
      systemProgram accounts = SystemProgram_programId /\
      trace flip =
        [EvInstruction myProgram (CoinFlip rngKpPublicKey userGuess) accounts
           (answerOf (CoinFlip rngKpPublicKey userGuess) accounts)] /\
      outcome flip
      = resultOf (answerOf (CoinFlip rngKpPublicKey userGuess) accounts) /\
      trace settle =
        [EvInstruction myProgram (SettleFlip escrowBump) accounts
           (answerOf (SettleFlip escrowBump) accounts)] /\
      outcome settle = resultOf (answerOf (SettleFlip escrowBump) accounts).
Proof.
  intros. subst flip settle answerOf resultOf.
  exists {| playerState := playerStateAccount;
            escrowAccount := escrow;
            user := publicKey keypair;
            systemProgram := SystemProgram_programId;
            randomnessAccountData := Some rngKpPublicKey |}.
  unfold createCoinFlipInstruction, settleFlipInstruction, buildInstruction,
    await.
  do 5 (split; [reflexivity |]).
  cbv beta.
  destruct (instruction env myProgram (CoinFlip rngKpPublicKey userGuess) _ w)
    as [[i1|e1] w1];
    destruct (instruction env myProgram (SettleFlip escrowBump) _ w)
      as [[i2|e2] w2];
    repeat split.
Qed.

End GameInstructions.

(** ** The loaders *)

Section LoaderProperties.

Context {W : Type} (lenv : LoaderEnv W).
Variable provider_ : Provider.

Lemma bind_invoke {A B} c (f : W -> Result A * W)
  (k : A -> Proc (W * list LoaderCall) B) s :
  bind (invoke c f) k s
  = match f (fst s) with
    | (Ok a, w') => k a (w', (snd s ++ [c])%list)
    | (Err e, w') => mkRun (Thrown e) (w', (snd s ++ [c])%list) []
    end.
Proof.
  unfold bind, invoke. destruct (f (fst s)) as [[a|e] w']; simpl.
  - destruct (k a _). reflexivity.
  - reflexivity.
Qed.

(** The run of myAnchorProgram, call by call. *)
Lemma myAnchorProgram_run keypath w calls :
  myAnchorProgram lenv provider_ keypath (w, calls)
  = match initKeypairFromFile lenv keypath w with
    | (Err e, w1) =>
        mkRun (Thrown e) (w1, (calls ++ [CallInitKeypairFromFile keypath])%list) []
    | (Ok kp, w1) =>
        match fetchIdl lenv (publicKey kp) provider_ w1 with
        | (Err e, w2) =>
            mkRun (Thrown e)
              (w2, (calls ++ [CallInitKeypairFromFile keypath;
                              CallFetchIdl (publicKey kp) provider_])%list) []
        | (Ok idl, w2) =>
            let journal :=
              (calls ++ [CallInitKeypairFromFile keypath;
                         CallFetchIdl (publicKey kp) provider_;
                         CallNewProgram idl provider_])%list in
            match newProgram lenv idl provider_ w2 with
            | (Err e, w3) => mkRun (Thrown e) (w3, journal) []
            | (Ok p, w3) => mkRun (Returned p) (w3, journal) []
            end
        end
    end.
Proof.
  unfold myAnchorProgram. rewrite bind_invoke. cbn [fst snd].
  destruct (initKeypairFromFile lenv keypath w) as [[kp|e] w1];
    [| reflexivity].
  cbv zeta. rewrite bind_invoke. cbn [fst snd].
  destruct (fetchIdl lenv (publicKey kp) provider_ w1) as [[idl|e] w2];
    [| rewrite <- app_assoc; reflexivity].
  rewrite bind_invoke. cbn [fst snd].
  destruct (newProgram lenv idl provider_ w2) as [[p|e] w3];
    rewrite <- !app_assoc; reflexivity.
Qed.

(** X16.  When the program's key file cannot be read, myAnchorProgram
    throws the reader's exception and makes no further call: no IDL is
    fetched and no program is constructed. *)
Theorem myAnchorProgram_key_file_unreadable :
  forall keypath w calls e w1,
    initKeypairFromFile lenv keypath w = (Err e, w1) ->
    let r := myAnchorProgram lenv provider_ keypath (w, calls) in
    outcome r = Thrown e /\
    world r = (w1, (calls ++ [CallInitKeypairFromFile keypath])%list).
Proof.
  intros keypath w calls e w1 Hk r. subst r.
  rewrite myAnchorProgram_run, Hk. split; reflexivity.
Qed.

(** X17.  The IDL is fetched for the public key read from the key file,
    and whatever the fetch answers is handed to the program constructor
    unchecked, a missing IDL (null) included; the function returns or
    throws as the constructor does. *)
Theorem myAnchorProgram_idl_unchecked :
  forall keypath w calls kp w1 idl w2 built w3,
    initKeypairFromFile lenv keypath w = (Ok kp, w1) ->
    fetchIdl lenv (publicKey kp) provider_ w1 = (Ok idl, w2) ->
    newProgram lenv idl provider_ w2 = (built, w3) ->
    let r := myAnchorProgram lenv provider_ keypath (w, calls) in
    outcome r = match built with
                | Ok p => Returned p
                | Err e => Thrown e
                end /\
    world r =
      (w3, (calls ++ [CallInitKeypairFromFile keypath;
                      CallFetchIdl (publicKey kp) provider_;
                      CallNewProgram idl provider_])%list).
Proof.
  intros keypath w calls kp w1 idl w2 built w3 Hk Hf Hn r. subst r.
  rewrite myAnchorProgram_run, Hk, Hf. cbv zeta. rewrite Hn.
  destruct built; split; reflexivity.
Qed.


(** X19.  loadSbProgram looks the oracle program's id up on the provider's
    connection, fetches the IDL for that id and hands the answer, null
    included, to the constructor, returning or throwing as the constructor
    does; when the lookup rejects nothing else is called. *)
Theorem loadSbProgram_calls :
  forall w calls,
    let r := loadSbProgram lenv provider_ (w, calls) in
    (forall e w1,
        getProgramId lenv (connection provider_) w = (Err e, w1) ->
        outcome r = Thrown e /\
        world r = (w1, (calls ++ [CallGetProgramId (connection provider_)])%list)) /\
    (forall pid w1 idl w2 built w3,
        getProgramId lenv (connection provider_) w = (Ok pid, w1) ->
        fetchIdl lenv pid provider_ w1 = (Ok idl, w2) ->
        newProgram lenv idl provider_ w2 = (built, w3) ->
        outcome r = match built with
                    | Ok p => Returned p
                    | Err e => Thrown e
                    end /\
        world r =
          (w3, (calls ++ [CallGetProgramId (connection provider_);
                          CallFetchIdl pid provider_;
                          CallNewProgram idl provider_])%list)).
Proof.
  intros w calls r. subst r. unfold loadSbProgram. split.
  - intros e w1 Hp. rewrite bind_invoke. cbn [fst snd]. rewrite Hp.
    split; reflexivity.
  - intros pid w1 idl w2 built w3 Hp Hf Hn.
    rewrite bind_invoke. cbn [fst snd]. rewrite Hp.
    rewrite bind_invoke. cbn [fst snd]. rewrite Hf.
    rewrite bind_invoke. cbn [fst snd]. rewrite Hn.
    destruct built; rewrite <- !app_assoc; split; reflexivity.
Qed.

End LoaderProperties.

(** ** Further runs on the reference environments *)

Module MoreRuns.

Import Devnet.

Lemma handleTransaction_rejection_escapes_witness :
  let run down :=
    handleTransaction (Outage.env (Outage.only down)) sbProgram rpc [flipIx]
      player [player] opts genesis in
  (outcome (run Outage.Builder) = Thrown Outage.unavailable /\
   steps (trace (run Outage.Builder)) = [Build]) /\
  (outcome (run Outage.Simulator) = Thrown Outage.unavailable /\
   steps (trace (run Outage.Simulator)) = [Build; Simulate]) /\
  (outcome (run Outage.Sender) = Thrown Outage.unavailable /\
   steps (trace (run Outage.Sender)) = [Build; Simulate; Submit]).
Proof.
  cbv zeta.
  pose proof (fun down =>
                handleTransaction_rejection_escapes
                  (Outage.env (Outage.only down)) sbProgram rpc [flipIx]
                  player [player] opts genesis) as H.
  split; [| split].
  - destruct (proj1 (H Outage.Builder) _ _ eq_refl) as (Ho & _ & Ht).
    rewrite Ho, Ht. split; reflexivity.
  - destruct (proj1 (proj2 (H Outage.Simulator)) _ _ _ _ eq_refl eq_refl)
      as (Ho & _ & Ht).
    rewrite Ho, Ht. split; reflexivity.
  - destruct (proj2 (proj2 (H Outage.Sender)) _ _ _ _ _ _
                eq_refl eq_refl eq_refl) as (Ho & _ & Ht).
    rewrite Ho, Ht. split; reflexivity.
Defined.


Lemma handleTransaction_never_exits_witness :
  let r :=
    handleTransaction env sbProgram rpc [flipIx] player [player] opts genesis in
  outcome r <> Exited 1 /\
  console (trace r) = [EvLog ["  Transaction Signature"; "sig0"]].
Proof.
  cbv zeta.
  destruct (handleTransaction_never_exits env sbProgram rpc [flipIx] player
              [player] opts genesis) as (Hn & _ & Hl).
  split; [exact (Hn 1) | exact Hl].
Defined.

Lemma ensureEscrowFunded_read_rejected_witness :
  let run down :=
    ensureEscrowFunded (Outage.env (Outage.only down)) rpc escrow player
      sbProgram opts genesis in
  (outcome (run Outage.BalanceReader) = Thrown Outage.unavailable /\
   minimumReads (trace (run Outage.BalanceReader)) = []) /\
  (outcome (run Outage.RentReader) = Thrown Outage.unavailable /\
   builds (trace (run Outage.RentReader)) = []).
Proof.
  cbv zeta.
  pose proof (fun down =>
                ensureEscrowFunded_read_rejected
                  (Outage.env (Outage.only down)) rpc escrow player
                  sbProgram opts genesis) as H.
  split.
  - destruct (proj1 (H Outage.BalanceReader) _ _ eq_refl) as (Ho & _ & Ht).
    rewrite Ho, Ht. split; reflexivity.
  - destruct (proj2 (H Outage.RentReader) _ _ _ _ eq_refl eq_refl)
      as (Ho & _ & Ht).
    rewrite Ho, Ht. split; reflexivity.
Defined.

(** The transfer is rejected by the cluster in the dry run and in the
    confirmation, and the funder returns all the same. *)
Lemma ensureEscrowFunded_verdicts_ignored_witness :
  let w := rejecting programError genesis in
  let r := ensureEscrowFunded env rpc escrow player sbProgram opts w in
  simulationVerdicts (trace r) = [Some programError] /\
  outcome r = Returned tt /\
  logged (trace r) =
    [["Funding account with 890880 lamports to meet rent exemption threshold."];
     ["  Transaction Signature "; "sig0"]].
Proof.
  cbv zeta.
  destruct (ensureEscrowFunded_verdicts_ignored env rpc escrow player
              sbProgram opts (rejecting programError genesis)
              0 _ 890880 _ (SystemTransfer "player" "escrow" 890880) _ _
              {| simErr := Some programError; simLogs := [] |} _
              "sig0" _ {| sigErr := Some programError |} _
              eq_refl eq_refl eq_refl eq_refl eq_refl eq_refl eq_refl eq_refl)
    as (Ho & _ & Ht).
  rewrite Ho, Ht. repeat split.
Defined.

(** With the sender down the funder throws as handleTransaction does; with
    a minimum of 10^21 lamports the transfer cannot be made, and the funder
    throws after the funding line, before any build. *)
Lemma ensureEscrowFunded_ends_as_handleTransaction_witness :
  let r :=
    ensureEscrowFunded (Outage.env (Outage.only Outage.Sender)) rpc escrow
      player sbProgram opts genesis in
  let h :=
    handleTransaction (Outage.env (Outage.only Outage.Sender)) sbProgram rpc
      [SystemTransfer "player" "escrow" 890880] player [player] opts genesis in
  let big := ensureEscrowFunded env rpc escrow player sbProgram opts
               (holding 0 (10 ^ 21)) in
  (outcome h = Thrown Outage.unavailable /\
   outcome r = Thrown Outage.unavailable /\
   submitted (trace r) = submitted (trace h)) /\
  ((exists e, outcome big = Thrown e) /\
   builds (trace big) = [] /\
   logged (trace big) =
     [["Funding account with 1e+21 lamports to meet rent exemption threshold."]]).
Proof.
  cbv zeta. split.
  - pose proof (ensureEscrowFunded_ends_as_handleTransaction
                  (Outage.env (Outage.only Outage.Sender)) rpc escrow player
                  sbProgram opts genesis 0 genesis 890880 genesis
                  eq_refl eq_refl eq_refl) as H.
    assert (Hix : SystemProgram_transfer (publicKey player) escrow
                    (JsNumber.sub 890880 0)
                  = Ok (SystemTransfer "player" "escrow" 890880))
      by (vm_compute; reflexivity).
    rewrite Hix in H. destruct H as (Ho & _ & _ & Hs & _).
    split; [vm_compute; reflexivity |]. split; [exact Ho | exact Hs].
  - pose proof (ensureEscrowFunded_ends_as_handleTransaction
                  env rpc escrow player sbProgram opts
                  (holding 0 (10 ^ 21)) 0 (holding 0 (10 ^ 21)) (10 ^ 21)
                  (holding 0 (10 ^ 21)) eq_refl eq_refl eq_refl) as H.
    assert (Hix : SystemProgram_transfer (publicKey player) escrow
                    (JsNumber.sub (10 ^ 21) 0)
                  = Err "RangeError: lamports is not an unsigned 64-bit integer")
      by (vm_compute; reflexivity).
    rewrite Hix in H. destruct H as (Ho & _ & Ht).
    rewrite Ho, Ht. split; [eexists; reflexivity |].
    split; vm_compute; reflexivity.
Defined.

Lemma setupQueue_lookup_rejected_witness :
  let r :=
    setupQueue (Outage.env (Outage.only Outage.QueueLookup)) myProgram genesis in
  outcome r = Thrown Outage.unavailable /\
  world r = genesis /\
  trace r = [EvGetDefaultQueue (rpcEndpoint rpc) (Err Outage.unavailable)].
Proof.
  exact (setupQueue_lookup_rejected
           (Outage.env (Outage.only Outage.QueueLookup)) myProgram genesis
           Outage.unavailable genesis eq_refl).
Defined.

Lemma setupQueue_outcomes_witness :
  trace (setupQueue (Outage.env (Outage.only Outage.QueueLookup)) myProgram
           genesis)
  = [EvGetDefaultQueue (rpcEndpoint rpc) (Err Outage.unavailable)] /\
  (exists q e,
      trace (setupQueue env myProgram (withoutQueue genesis)) =
      [EvGetDefaultQueue (rpcEndpoint rpc) (Ok q);
       EvLog ["Queue account"; pubkey q];
       EvLoadData q (Err e);
       EvError ["Queue not found, ensure you are using devnet in your env"];
       EvExit 1]) /\
  (exists q,
      "queue" = pubkey q /\
      trace (setupQueue env myProgram genesis) =
      [EvGetDefaultQueue (rpcEndpoint rpc) (Ok q);
       EvLog ["Queue account"; pubkey q];
       EvLoadData q (Ok tt)]).
Proof.
  split; [| split].
  - exact (proj1 (setupQueue_outcomes
                    (Outage.env (Outage.only Outage.QueueLookup)) myProgram
                    genesis) Outage.unavailable eq_refl).
  - exact (proj2 (proj1 (proj2 (setupQueue_outcomes env myProgram
                                  (withoutQueue genesis))) 1 eq_refl)).
  - exact (proj1 (proj2 (proj2 (setupQueue_outcomes env myProgram genesis)))
             "queue" eq_refl).
Defined.

Lemma initializeGame_is_one_transaction_witness :
  let accounts :=
    {| playerState := playerStatePda;
       escrowAccount := escrow;
       user := publicKey player;
       systemProgram := SystemProgram_programId;
       randomnessAccountData := None |} in
  let down := Outage.env (Outage.only Outage.InstructionBuilder) in
  (outcome (initializeGame down myProgram playerStatePda escrow player
              sbProgram rpc genesis)
   = Thrown Outage.unavailable /\
   trace (initializeGame down myProgram playerStatePda escrow player
            sbProgram rpc genesis)
   = [EvInstruction myProgram Initialize accounts (Err Outage.unavailable)]) /\
  (outcome (initializeGame env myProgram playerStatePda escrow player
              sbProgram rpc genesis)
   = Returned tt /\
   map ixs (builds (trace (initializeGame env myProgram playerStatePda escrow
                             player sbProgram rpc genesis)))
   = [[ProgramCall "coinflip" Initialize accounts]]).
Proof.
  cbv zeta. split.
  - destruct (proj1 (proj2 (initializeGame_is_one_transaction
                              (Outage.env (Outage.only Outage.InstructionBuilder))
                              myProgram sbProgram rpc playerStatePda escrow
                              player genesis))
                _ _ eq_refl) as (Ho & _ & Ht).
    split; [exact Ho | exact Ht].
  - destruct (proj2 (proj2 (initializeGame_is_one_transaction
                              env myProgram sbProgram rpc playerStatePda
                              escrow player genesis))
                _ _ eq_refl) as (Ho & _ & _ & Hb).
    rewrite Ho, Hb. split; reflexivity.
Defined.

Lemma blank_answer_exits_witness :
  let r := getUserGuessFromCommandLine env (answering "   ") in
  outcome r = Exited 1 /\
  trace r =
    [EvQuestion guessPrompt "   "; EvError [invalidGuessMessage]; EvExit 1].
Proof.
  exact (blank_answer_exits env (answering "   ") "   " (withTyped [] genesis)
           eq_refl eq_refl eq_refl).
Defined.

Lemma accepted_answers_witness :
  outcome (getUserGuessFromCommandLine env (answering "  HeAdS ")) = Returned true /\
  (exists pre core post,
      " tails" = String.append pre (String.append core post) /\
      allWhiteSpace pre = true /\
      allWhiteSpace post = true /\
      JsString.toLowerCase core = "tails") /\
  outcome (getUserGuessFromCommandLine env (answering "he ads")) = Exited 1.
Proof.
  split; [| split].
  - apply (proj1 (accepted_answers env (answering "  HeAdS ") "  HeAdS "
                    (withTyped [] genesis) eq_refl eq_refl)).
    exists "  ", "HeAdS", " ". repeat split.
  - apply (proj2 (accepted_answers env (answering " tails") " tails"
                    (withTyped [] genesis) eq_refl eq_refl)).
    reflexivity.
  - reflexivity.
Defined.

Lemma myAnchorProgram_key_file_unreadable_witness :
  let r :=
    myAnchorProgram Workstation.lenv Workstation.wallet "missing.json"
      (Workstation.fresh, []) in
  outcome r = Thrown "ENOENT: no such file or directory" /\
  world r = (Workstation.fresh, [CallInitKeypairFromFile "missing.json"]).
Proof.
  exact (myAnchorProgram_key_file_unreadable Workstation.lenv
           Workstation.wallet "missing.json" Workstation.fresh [] _ _ eq_refl).
Defined.

(** The IDL account of the deployed program is not published: the fetch
    answers null, and null is what the constructor is given. *)
Lemma myAnchorProgram_idl_unchecked_witness :
  let path := "sb-randomness/target/deploy/sb_randomness-keypair.json" in
  let r :=
    myAnchorProgram Workstation.lenv Workstation.wallet path
      (Workstation.unpublished, []) in
  outcome r = Thrown "TypeError: Cannot read properties of null" /\
  world r =
    (Workstation.unpublished,
     [CallInitKeypairFromFile path;
      CallFetchIdl "coinflip" Workstation.wallet;
      CallNewProgram None Workstation.wallet]).
Proof.
  exact (myAnchorProgram_idl_unchecked Workstation.lenv Workstation.wallet
           "sb-randomness/target/deploy/sb_randomness-keypair.json"
           Workstation.unpublished [] Workstation.gameKey
           Workstation.unpublished None Workstation.unpublished
           (Err "TypeError: Cannot read properties of null")
           Workstation.unpublished eq_refl eq_refl eq_refl).
Defined.

Lemma loadSbProgram_calls_witness :
  (outcome (loadSbProgram Workstation.offline Workstation.wallet
              (Workstation.deployed, []))
   = Thrown "fetch failed" /\
   world (loadSbProgram Workstation.offline Workstation.wallet
            (Workstation.deployed, []))
   = (Workstation.deployed, [CallGetProgramId rpc])) /\
  (outcome (loadSbProgram Workstation.lenv Workstation.wallet
              (Workstation.deployed, []))
   = Returned {| programId := "switchboard"; provider := Workstation.wallet |} /\
   world (loadSbProgram Workstation.lenv Workstation.wallet
            (Workstation.deployed, []))
   = (Workstation.deployed,
      [CallGetProgramId rpc;
       CallFetchIdl "switchboard" Workstation.wallet;
       CallNewProgram (Some "idl of switchboard") Workstation.wallet])).
Proof.
  split.
  - exact (proj1 (loadSbProgram_calls Workstation.offline Workstation.wallet
                    Workstation.deployed []) _ _ eq_refl).
  - exact (proj2 (loadSbProgram_calls Workstation.lenv Workstation.wallet
                    Workstation.deployed [])
             "switchboard" Workstation.deployed
             (Some "idl of switchboard") Workstation.deployed
             (Ok {| programId := "switchboard";
                    provider := Workstation.wallet |})
             Workstation.deployed eq_refl eq_refl eq_refl).
Defined.

End MoreRuns.
